(** * Data loaders of the evaluation harness ([scripts/dataloaders.py])

    A shallow embedding of the three loaders (synthetic test data, JSONL
    files, the dataset hub), of the factory and of the two [load_testdata]
    entry points, followed by the properties of the loader specification.

    The source file holds two generations of the same classes: the first one
    takes [(dataset_path, dataset_args)] and caps with [num]; the second one
    takes a configuration object and caps with [head].  They live in the
    modules [V1] and [V2] below and keep the names of the source. *)

From Stdlib Require Import ZArith String Ascii DecimalString DecimalZ.
From stdpp Require Import base option list list_numbers strings gmap.

Open Scope string_scope.
Open Scope Z_scope.
Open Scope list_scope.

(** ** Python values

    The values the loaders look at: configuration entries, decoded JSON and
    the rows of a hub dataset.  A [dict] keeps its insertion order, so it is
    an association list with unique keys (see [dict_set]).  Floats never
    reach a branch of the loaders and are left out. *)

#[warnings="-register-all"]
Inductive value : Type :=
| VNone
| VBool (b : bool)
| VInt (z : Z)
| VStr (s : string)
| VList (l : list value)
| VDict (d : list (string * value)).

(** [bool(v)] *)
Definition truthy (v : value) : bool :=
  match v with
  | VNone => false
  | VBool b => b
  | VInt z => negb (z =? 0)
  | VStr s => negb (String.eqb s EmptyString)
  | VList l => match l with [] => false | _ => true end
  | VDict d => match d with [] => false | _ => true end
  end.

(** [a or b] *)
Definition py_or (a b : value) : value := if truthy a then a else b.

(** [v is None] *)
Definition is_None (v : value) : bool :=
  match v with VNone => true | _ => false end.

(** The integer behind an [int] (or a [bool], its subclass); nothing else
    can be added to 1, given to [range] or used as a slice bound. *)
Definition as_int (v : value) : option Z :=
  match v with
  | VInt z => Some z
  | VBool b => Some (if b then 1 else 0)
  | _ => None
  end.

(** [d[k] = v] on an insertion-ordered dict. *)
Fixpoint dict_set (d : list (string * value)) (k : string) (v : value)
  : list (string * value) :=
  match d with
  | [] => [(k, v)]
  | (k', v') :: d' =>
      if String.eqb k' k then (k', v) :: d' else (k', v') :: dict_set d' k v
  end.

(** [{k: v for k, v in items}] *)
Definition dict_of_items (items : list (string * value)) : list (string * value) :=
  foldl (λ d kv, dict_set d kv.1 kv.2) [] items.

(** ** Strings *)

(** [f"{i}"] for an integer. *)
Definition str_of_int (i : Z) : string := NilZero.string_of_int (Z.to_int i).

(** [s.endswith(suffix)]: the last [len(suffix)] characters are compared. *)
Definition endswith (s suffix : string) : bool :=
  let n := String.length s in
  let m := String.length suffix in
  (m <=? n)%nat && String.eqb (substring (n - m) m s) suffix.

(** [c.isspace()] for the characters below 256, which is what a [string]
    holds here: tab to carriage return, the four separators 28..31, the
    space, NEL and the no-break space. *)
Definition isspace (c : ascii) : bool :=
  let n := nat_of_ascii c in
  ((9 <=? n)%nat && (n <=? 13)%nat) || ((28 <=? n)%nat && (n <=? 32)%nat)
  || (n =? 133)%nat || (n =? 160)%nat.

Fixpoint lstrip (s : string) : string :=
  match s with
  | EmptyString => EmptyString
  | String c s' => if isspace c then lstrip s' else s
  end.

Definition rstrip (s : string) : string := String.rev (lstrip (String.rev s)).

(** [s.strip()] *)
Definition strip (s : string) : string := rstrip (lstrip s).

(** A line made of whitespace only; the empty line of a file is ["\n"]. *)
Fixpoint all_space (s : string) : bool :=
  match s with
  | EmptyString => true
  | String c s' => isspace c && all_space s'
  end.

(** [needle in s] *)
Fixpoint contains (s needle : string) : bool :=
  String.prefix needle s ||
  match s with
  | EmptyString => false
  | String _ s' => contains s' needle
  end.

(** ** Lists *)

(** [l[:k]] for an integer [k]; a negative bound counts from the end. *)
Definition slice_to {A} (l : list A) (k : Z) : list A :=
  if k <? 0 then take (Z.to_nat (Z.of_nat (length l) + k)) l
  else take (Z.to_nat k) l.

(** [range(a, b)] *)
Definition py_range (a b : Z) : list Z := seqZ a (b - a).

(** ** Exceptions, effects and the outside world *)

Inductive exn : Type :=
| FileNotFoundError (msg : string)
| JSONDecodeError (doc : string)
| TypeError
| AttributeError
| KeyError (key : string)
| HubError (msg : string).

(** What a call leaves behind in the outside world. *)
Inductive event : Type :=
| EvOpen (path : string)
| EvLoadDataset (path : string) (name : option value) (split : value).

Inductive outcome (A : Type) : Type :=
| Return (a : A)
| Raise (e : exn).
Arguments Return {A} a.
Arguments Raise {A} e.

(** A computation: its outcome and the calls it made, oldest first. *)
Definition io (A : Type) : Type := outcome A * list event.

Definition io_ret {A} (a : A) : io A := (Return a, []).

Definition io_bind {A B} (f : A → io B) (m : io A) : io B :=
  match m with
  | (Return a, t) => let '(r, t') := f a in (r, t ++ t')
  | (Raise e, t) => (Raise e, t)
  end.

#[global] Instance io_mret : MRet io := @io_ret.
#[global] Instance io_mbind : MBind io := @io_bind.

Definition raise {A} (e : exn) : io A := (Raise e, []).

(** [try: body / except FileNotFoundError: handler]; any other exception
    passes through. *)
Definition except_FileNotFoundError {A} (body handler : io A) : io A :=
  match body with
  | (Raise (FileNotFoundError _), t) => let '(r, t') := handler in (r, t ++ t')
  | other => other
  end.

(** A list comprehension whose element expression has effects: elements are
    evaluated left to right and the first exception ends it. *)
Fixpoint list_comp {A B} (f : A → io B) (l : list A) : io (list B) :=
  match l with
  | [] => mret []
  | x :: l' => y ← f x; ys ← list_comp f l'; mret (y :: ys)
  end.

(** The collaborators of the loaders.  [fs path] is [None] when the path
    does not exist and otherwise the lines the text file yields when it is
    iterated (each with its line end, the last one maybe without; other
    failures of the file system are not part of the model);
    [json_loads] is [None] when [json.loads] rejects the text;
    [hub] is [datasets.load_dataset], each row given by its [items()]. *)
Record World : Type := {
  fs : string → option (list string);
  json_loads : string → option value;
  hub : string → option value → value → outcome (list (list (string * value)))
}.

(** [open(path, 'r')] followed by the iteration over the file. *)
Definition open_lines (w : World) (path : string) : io (list string) :=
  match fs w path with
  | Some ls => (Return ls, [EvOpen path])
  | None =>
      (Raise (FileNotFoundError
                ("[Errno 2] No such file or directory: '" +:+ path +:+ "'")),
       [EvOpen path])
  end.

(** [json.loads(doc)] *)
Definition loads (w : World) (doc : string) : io value :=
  match json_loads w doc with
  | Some v => mret v
  | None => raise (JSONDecodeError doc)
  end.

(** [load_dataset(path, name, split=split)], [name] omitted for [None]. *)
Definition load_dataset (w : World) (path : string) (name : option value)
    (split : value) : io (list (list (string * value))) :=
  (hub w path name split, [EvLoadDataset path name split]).

(** [n + 1] *)
Definition add_one (n : value) : io Z :=
  match as_int n with
  | Some z => mret (z + 1)
  | None => raise TypeError
  end.

(** [dataset[:k]] *)
Definition slice_value {A} (dataset : list A) (k : value) : io (list A) :=
  match k with
  | VNone => mret dataset
  | _ => match as_int k with
         | Some z => mret (slice_to dataset z)
         | None => raise TypeError
         end
  end.

(** The record the synthetic loader builds for index [i]. *)
Definition test_record (i : Z) : value :=
  VDict [ ("task_id", VStr ("test_" +:+ str_of_int i));
          ("prompt", VStr ("test_prompt_" +:+ str_of_int i));
          ("canonical_solution", VStr ("test_solution_" +:+ str_of_int i));
          ("test", VStr ("test_test_" +:+ str_of_int i));
          ("entry_point", VStr ("test_entry_" +:+ str_of_int i)) ].

(** The loop [for i in range(1, stop): test_data.append({...})]. *)
Definition test_data_loop (stop : Z) : list value :=
  foldl (λ test_data i, test_data ++ [test_record i]) [] (py_range 1 stop).

(** ** The configuration object of the second generation *)

(** [s.split(sep)] for a one-character separator. *)
Fixpoint split_on (sep : ascii) (s : string) : list string :=
  match s with
  | EmptyString => [EmptyString]
  | String c s' =>
      if Ascii.eqb c sep then EmptyString :: split_on sep s'
      else match split_on sep s' with
           | [] => [String c EmptyString]
           | p :: ps => String c p :: ps
           end
  end.

(** Modelled from the spec: the class of the configuration object ([args])
    is not part of [dataloaders.py].  A subscript names its option by
    alternatives separated by [|]: the first alias present in the mapping
    wins, an alternative [=text] is the stated default, and an option that
    is absent and has no default reads as [None]. *)
Fixpoint resolve (args : gmap string value) (alts : list string) : value :=
  match alts with
  | [] => VNone
  | String "=" dflt :: _ => VStr dflt
  | key :: alts' =>
      match args !! key with
      | Some v => v
      | None => resolve args alts'
      end
  end.

(** Modelled from the spec: [args[key]] on the configuration object. *)
Definition cfg_get (args : gmap string value) (key : string) : value :=
  resolve args (split_on "|" key).

(** ** Second generation: a configuration object and [head] *)

Module V2.

(** The attributes the base class sets. *)
Record DataLoader_base : Type := {
  dataset_path : string;
  args : gmap string value;
  head : value
}.

(** [DataLoader.__init__], inherited by the three loaders. *)
Definition DataLoader_init (dataset_path : string) (args : gmap string value)
  : DataLoader_base :=
  {| dataset_path := dataset_path;
     args := args;
     head := cfg_get args "dataset_head|head" |}.

Inductive DataLoader : Type :=
| TestDataLoader (self : DataLoader_base)
| JSONDataLoader (self : DataLoader_base)
| HFDataLoader (self : DataLoader_base).

Definition TestDataLoader_load (self : DataLoader_base) : io (list value) :=
  let n := py_or (head self) (VInt 10) in
  stop ← add_one n;
  mret (test_data_loop stop).

Definition JSONDataLoader_load (w : World) (self : DataLoader_base)
  : io (list value) :=
  dataset ← except_FileNotFoundError
    (f ← open_lines w (dataset_path self);
     list_comp (λ line, loads w (strip line)) f)
    (raise (FileNotFoundError
              ("The file " +:+ dataset_path self +:+ " does not exist.")));
  if is_None (head self) then mret dataset
  else slice_value dataset (head self).

Definition HFDataLoader_load (w : World) (self : DataLoader_base)
  : io (list value) :=
  let split := cfg_get (args self) "split|=test" in
  let subset := cfg_get (args self) "subset" in
  dataset ← (if truthy subset
             then load_dataset w (dataset_path self) (Some subset) split
             else load_dataset w (dataset_path self) None split);
  let dataset := (λ item, VDict (dict_of_items item)) <$> dataset in
  if is_None (head self) then mret dataset
  else slice_value dataset (head self).

Definition load (w : World) (loader : DataLoader) : io (list value) :=
  match loader with
  | TestDataLoader self => TestDataLoader_load self
  | JSONDataLoader self => JSONDataLoader_load w self
  | HFDataLoader self => HFDataLoader_load w self
  end.

Definition load_testdata (w : World) (args : gmap string value)
  : io (list value) :=
  let dataset_path := cfg_get args "dataset_path|dataset" in
  match dataset_path with
  | VNone => load w (TestDataLoader (DataLoader_init "dataset/dummy" args))
  | VStr s =>
      if endswith s ".jsonl"
      then load w (JSONDataLoader (DataLoader_init s args))
      else load w (HFDataLoader (DataLoader_init s args))
  | _ => raise AttributeError
  end.

End V2.

(** ** First generation: [(dataset_path, dataset_args)] and [num]

    It stands after the second generation here because its factory calls
    the classes of the second one (see below). *)

Module V1.

(** The three loader classes with the attributes their [__init__] sets. *)
Inductive DataLoader : Type :=
| TestDataLoader (dataset_args : gmap string value) (dataset_num : value)
| JSONDataLoader (dataset_path : string) (dataset_args : gmap string value)
    (dataset_num : value)
| HFDataLoader (dataset_path : string) (dataset_args : gmap string value)
    (dataset_num : value).

(** [d.get(k, dflt)] *)
Definition dict_get (d : gmap string value) (k : string) (dflt : value) : value :=
  default dflt (d !! k).

(** [dataset_args if dataset_args is not None else {}] *)
Definition args_or_empty (dataset_args : option (gmap string value))
  : gmap string value :=
  default ∅ dataset_args.

Definition TestDataLoader_init (dataset_args : option (gmap string value))
  : DataLoader :=
  let a := args_or_empty dataset_args in
  TestDataLoader a (dict_get a "num" (VInt 2)).

Definition JSONDataLoader_init (dataset_path : string)
    (dataset_args : option (gmap string value)) : DataLoader :=
  let a := args_or_empty dataset_args in
  JSONDataLoader dataset_path a (dict_get a "num" VNone).

Definition HFDataLoader_init (dataset_path : string)
    (dataset_args : option (gmap string value)) : DataLoader :=
  let a := args_or_empty dataset_args in
  HFDataLoader dataset_path a (dict_get a "num" VNone).

Definition TestDataLoader_load (dataset_num : value) : io (list value) :=
  stop ← add_one dataset_num;
  mret (test_data_loop stop).

Definition JSONDataLoader_load (w : World) (dataset_path : string)
    (dataset_num : value) : io (list value) :=
  dataset ← except_FileNotFoundError
    (f ← open_lines w dataset_path;
     list_comp (λ line, loads w (strip line)) f)
    (raise (FileNotFoundError
              ("The file " +:+ dataset_path +:+ " does not exist.")));
  if is_None dataset_num then mret dataset
  else slice_value dataset dataset_num.

Definition HFDataLoader_load (w : World) (dataset_path : string)
    (dataset_args : gmap string value) (dataset_num : value)
  : io (list value) :=
  let split := dict_get dataset_args "split" (VStr "test") in
  let subset := dict_get dataset_args "subset" VNone in
  dataset ← (if truthy subset
             then load_dataset w dataset_path (Some subset) split
             else load_dataset w dataset_path None split);
  let dataset := (λ item, VDict (dict_of_items item)) <$> dataset in
  if is_None dataset_num then mret dataset
  else slice_value dataset dataset_num.

(** The method [load], resolved on the class of the object. *)
Definition load (w : World) (self : DataLoader) : io (list value) :=
  match self with
  | TestDataLoader _ num => TestDataLoader_load num
  | JSONDataLoader path _ num => JSONDataLoader_load w path num
  | HFDataLoader path a num => HFDataLoader_load w path a num
  end.

(** *** The factory and the first [load_testdata]

    The factory looks the class names up when it is called.  By then the
    module has bound [TestDataLoader], [JSONDataLoader] and [HFDataLoader]
    again, to the classes of the second generation (lines 137, 158 and
    176), so these are the classes it calls, with the arguments written for
    the first generation. *)

Inductive class_name : Type :=
| name_TestDataLoader
| name_JSONDataLoader
| name_HFDataLoader.

(** An object the factory builds: its class and the attributes set by
    [DataLoader.__init__] of line 121.  Its [args] is the plain dict the
    caller gave as [dataset_args], not a configuration object. *)
Record rebound : Type := {
  rebound_class : class_name;
  rebound_self : V2.DataLoader_base
}.

(** [d[k]] on a plain dict. *)
Definition dict_item (d : gmap string value) (k : string) : io value :=
  match d !! k with
  | Some v => mret v
  | None => raise (KeyError k)
  end.

(** [cls(dataset_args)]: one argument, where [__init__(self, dataset_path,
    args)] wants two. *)
Definition call_with_one (cls : class_name)
    (dataset_args : option (gmap string value)) : io rebound :=
  raise TypeError.

(** [cls(dataset_path, dataset_args)]: [__init__] subscripts its second
    argument with the option name; [None] has no subscript. *)
Definition call_with_two (cls : class_name) (dataset_path : string)
    (dataset_args : option (gmap string value)) : io rebound :=
  match dataset_args with
  | None => raise TypeError
  | Some d =>
      head ← dict_item d "dataset_head|head";
      mret {| rebound_class := cls;
              rebound_self := {| V2.dataset_path := dataset_path;
                                 V2.args := d;
                                 V2.head := head |} |}
  end.

(** [DataLoaderFactory.create]; [dataset_path] is whatever the caller
    passes, and only a [str] has [endswith]. *)
Definition create (dataset_path : value)
    (dataset_args : option (gmap string value)) : io rebound :=
  match dataset_path with
  | VStr s =>
      if String.eqb s "test" then call_with_one name_TestDataLoader dataset_args
      else if endswith s ".jsonl"
           then call_with_two name_JSONDataLoader s dataset_args
      else call_with_two name_HFDataLoader s dataset_args
  | _ => raise AttributeError
  end.

(** [HFDataLoader.load] of the second generation on an object whose [args]
    is a plain dict: the two subscripts want their keys as they are
    written. *)
Definition HFDataLoader_load_on_dict (w : World) (self : V2.DataLoader_base)
  : io (list value) :=
  split ← dict_item (V2.args self) "split|=test";
  subset ← dict_item (V2.args self) "subset";
  dataset ← (if truthy subset
             then load_dataset w (V2.dataset_path self) (Some subset) split
             else load_dataset w (V2.dataset_path self) None split);
  let dataset := (λ item, VDict (dict_of_items item)) <$> dataset in
  if is_None (V2.head self) then mret dataset
  else slice_value dataset (V2.head self).

(** [loader.load()] on an object the factory built.  The other two methods
    do not read [args]. *)
Definition load_rebound (w : World) (loader : rebound) : io (list value) :=
  match rebound_class loader with
  | name_TestDataLoader => V2.TestDataLoader_load (rebound_self loader)
  | name_JSONDataLoader => V2.JSONDataLoader_load w (rebound_self loader)
  | name_HFDataLoader => HFDataLoader_load_on_dict w (rebound_self loader)
  end.

Definition load_testdata (w : World) (dataset_path : value)
    (dataset_args : option (gmap string value)) : io (list value) :=
  loader ← create dataset_path dataset_args;
  load_rebound w loader.

End V1.

(** ** Reading the specification

    The dispatcher as the specification words it: a loader kind chosen from
    the dataset identifier, absent or a string. *)

Inductive loader_kind : Type := Synthetic | FromFile | FromRegistry.

Definition spec_select (identifier : option string) : loader_kind :=
  match identifier with
  | None => Synthetic
  | Some s =>
      if bool_decide (list_ascii_of_string ".jsonl"
                        `suffix_of` list_ascii_of_string s)
      then FromFile else FromRegistry
  end.

(** The identifier a configuration carries, when it is absent or a string. *)
Definition identifier_of (v : value) : option (option string) :=
  match v with
  | VNone => Some None
  | VStr s => Some (Some s)
  | _ => None
  end.

(** The loader the specification's dispatcher builds and runs. *)
Definition spec_dispatch (w : World) (args : gmap string value)
    (identifier : option string) : io (list value) :=
  let self := V2.DataLoader_init (default "dataset/dummy" identifier) args in
  V2.load w match spec_select identifier with
            | Synthetic => V2.TestDataLoader self
            | FromFile => V2.JSONDataLoader self
            | FromRegistry => V2.HFDataLoader self
            end.

(** A cap as the configuration holds it: an integer, or [None] for none. *)
Definition cap_value (cap : option Z) : value :=
  match cap with
  | Some h => VInt h
  | None => VNone
  end.

(** Truncation as the specification words it: the first [head] records when
    [head] is smaller than their number, all of them otherwise. *)
Definition spec_truncate {A} (cap : option Z) (records : list A) : list A :=
  match cap with
  | Some h =>
      if h <? Z.of_nat (length records) then take (Z.to_nat h) records
      else records
  | None => records
  end.

(** The subset argument of the hub call as the specification words it: the
    configured subset, left out when none is configured. *)
Definition stated_name (subset : value) : option value :=
  match subset with
  | VNone => None
  | v => Some v
  end.

(** The subset argument the hub call gets: the subset when it is true in a
    condition, none otherwise. *)
Definition passed_name (subset : value) : option value :=
  if truthy subset then Some subset else None.


(** ** Reading the results *)

(** [d[k]] on a dict, [None] for a missing key or for a value that is no
    dict. *)
Fixpoint dict_lookup (d : list (string * value)) (k : string) : option value :=
  match d with
  | [] => None
  | (k', v) :: d' => if String.eqb k' k then Some v else dict_lookup d' k
  end.

Definition value_get (v : value) (k : string) : option value :=
  match v with
  | VDict d => dict_lookup d k
  | _ => None
  end.

(** ** A small world to run the loaders in *)

Module Sample.

Definition nl : string := String (ascii_of_nat 10) EmptyString.
Definition dq : string := String (ascii_of_nat 34) EmptyString.

(** The text [{"id": n}]. *)
Definition obj_text (n : Z) : string :=
  "{" +:+ dq +:+ "id" +:+ dq +:+ ": " +:+ str_of_int n +:+ "}".

Definition obj (n : Z) : value := VDict [("id", VInt n)].

(** A decoder that knows the five objects of the sample file, and rejects
    the rest, the empty text among it. *)
Definition decode (doc : string) : option value :=
  match list_find (λ n, doc = obj_text n) [1; 2; 3; 4; 5] with
  | Some (_, n) => Some (obj n)
  | None => None
  end.

Definition sample_lines : list string :=
  [ obj_text 1 +:+ nl; "  " +:+ obj_text 2 +:+ nl; obj_text 3 +:+ nl;
    obj_text 4 +:+ " " +:+ nl; obj_text 5 ].

Definition files (path : string) : option (list string) :=
  if String.eqb path "data/sample.jsonl" then Some sample_lines
  else if String.eqb path "data/broken.jsonl"
       then Some [obj_text 1 +:+ nl; "{oops" +:+ nl; obj_text 3 +:+ nl]
  else if String.eqb path "data/blank.jsonl"
       then Some [obj_text 1 +:+ nl; nl; obj_text 2 +:+ nl]
  else None.

Definition rows : list (list (string * value)) :=
  [ [("text", VStr "a"); ("label", VInt 0)];
    [("text", VStr "b"); ("label", VInt 1)];
    [("text", VStr "c"); ("label", VInt 0)];
    [("text", VStr "d"); ("label", VInt 1)] ].

Definition registry (path : string) (name : option value) (split : value)
  : outcome (list (list (string * value))) :=
  if String.eqb path "org/dataset" then Return rows
  else Raise (HubError "dataset not found").

Definition world : World :=
  {| fs := files; json_loads := decode; hub := registry |}.

End Sample.

(** The sample world with one more file: the five objects again, one per
    line, without any padding. *)
Module SampleMore.

Definition plain_lines : list string :=
  [ Sample.obj_text 1; Sample.obj_text 2; Sample.obj_text 3;
    Sample.obj_text 4; Sample.obj_text 5 ].

Definition files (path : string) : option (list string) :=
  if String.eqb path "data/plain.jsonl" then Some plain_lines
  else Sample.files path.

Definition world : World :=
  {| fs := files; json_loads := Sample.decode; hub := Sample.registry |}.

End SampleMore.

(** * Properties *)

(** ** Strings *)

Section Strings.

Implicit Types s p suffix : string.

Lemma app_cons c s p : String c s +:+ p = String c (s +:+ p).
Proof. reflexivity. Qed.

Lemma app_nil_l s : EmptyString +:+ s = s.
Proof. reflexivity. Qed.

Lemma length_app s p :
  String.length (s +:+ p) = (String.length s + String.length p)%nat.
Proof. induction s as [|c s IH]; [done|]. rewrite app_cons. cbn. by rewrite IH. Qed.

Lemma substring_whole s : substring 0 (String.length s) s = s.
Proof. induction s as [|c s IH]; [done|]. cbn. by rewrite IH. Qed.

Lemma substring_app_tail p suffix :
  substring (String.length p) (String.length suffix) (p +:+ suffix) = suffix.
Proof.
  induction p as [|c p IH]; [apply substring_whole|].
  rewrite app_cons. cbn. apply IH.
Qed.

Lemma substring_split s (k : nat) :
  (k ≤ String.length s)%nat →
  s = substring 0 k s +:+ substring k (String.length s - k) s.
Proof.
  revert k. induction s as [|c s IH]; intros [|k] Hk; cbn in *.
  - done.
  - lia.
  - by rewrite substring_whole.
  - rewrite app_cons. f_equal. apply IH. lia.
Qed.

(** [endswith] holds exactly of the strings that are some stem followed
    by the suffix. *)
Lemma endswith_spec s suffix :
  endswith s suffix = true ↔ ∃ stem, s = stem +:+ suffix.
Proof.
  unfold endswith. rewrite andb_true_iff, Nat.leb_le, String.eqb_eq. split.
  - intros [Hle Hsub]. exists (substring 0 (String.length s - String.length suffix) s).
    pose proof (substring_split s (String.length s - String.length suffix)) as Hs.
    replace (String.length s - (String.length s - String.length suffix))%nat
      with (String.length suffix) in Hs by lia.
    rewrite Hsub in Hs. apply Hs. lia.
  - intros [stem ->]. rewrite length_app. split; [lia|].
    replace (String.length stem + String.length suffix - String.length suffix)%nat
      with (String.length stem) by lia.
    apply substring_app_tail.
Qed.

Lemma list_ascii_app s p :
  list_ascii_of_string (s +:+ p)
  = list_ascii_of_string s ++ list_ascii_of_string p.
Proof. induction s as [|c s IH]; [done|]. rewrite app_cons. cbn. by rewrite IH. Qed.

Lemma string_of_list_app (l k : list ascii) :
  string_of_list_ascii (l ++ k)
  = string_of_list_ascii l +:+ string_of_list_ascii k.
Proof. induction l as [|c l IH]; [done|]. cbn. rewrite app_cons. by rewrite IH. Qed.

(** The source's test and the list reading of "ends with" agree. *)
Lemma endswith_suffix s suffix :
  endswith s suffix
  = bool_decide (list_ascii_of_string suffix `suffix_of` list_ascii_of_string s).
Proof.
  apply eq_true_iff_eq. rewrite endswith_spec, bool_decide_eq_true. split.
  - intros [stem ->]. exists (list_ascii_of_string stem). apply list_ascii_app.
  - intros [k Hk]. exists (string_of_list_ascii k).
    rewrite <- (string_of_list_ascii_of_string s), Hk, string_of_list_app.
    by rewrite string_of_list_ascii_of_string.
Qed.

Lemma prefix_app s p : String.prefix s (s +:+ p) = true.
Proof.
  induction s as [|c s IH]; [by destruct p|].
  rewrite app_cons. cbn. destruct (ascii_dec c c); [apply IH | done].
Qed.

Lemma contains_app_r s needle p :
  contains s needle = true → contains (p +:+ s) needle = true.
Proof.
  intros H. induction p as [|c p IH]; [done|].
  rewrite app_cons. cbn [contains]. rewrite IH. apply orb_true_r.
Qed.

Lemma contains_prefix s needle :
  String.prefix needle s = true → contains s needle = true.
Proof. intros H. destruct s; cbn [contains]; by rewrite H. Qed.

(** A text built around [needle] contains it. *)
Lemma contains_middle p needle q : contains (p +:+ needle +:+ q) needle = true.
Proof. apply contains_app_r, contains_prefix, prefix_app. Qed.

Lemma lstrip_all_space s : all_space s = true → lstrip s = EmptyString.
Proof.
  induction s as [|c s IH]; [done|]. cbn.
  intros [Hc Hs]%andb_true_iff. rewrite Hc. by apply IH.
Qed.

(** Stripping a line of whitespace leaves the empty text. *)
Lemma strip_all_space s : all_space s = true → strip s = EmptyString.
Proof. intros H. unfold strip. by rewrite (lstrip_all_space s H). Qed.

End Strings.

(** ** Effects *)

Section Effects.

Context (w : World).

Lemma bind_return {A B} (a : A) (t : list event) (f : A → io B) :
  ((Return a, t) ≫= f) = (let '(r, t') := f a in (r, t ++ t')).
Proof. reflexivity. Qed.

Lemma bind_raise {A B} (e : exn) (t : list event) (f : A → io B) :
  ((Raise e, t) ≫= f) = (Raise e, t).
Proof. reflexivity. Qed.

Lemma list_comp_cons {A B} (f : A → io B) (x : A) (l : list A) :
  list_comp f (x :: l) = (y ← f x; ys ← list_comp f l; mret (y :: ys)).
Proof. reflexivity. Qed.

Lemma loads_ok (doc : string) (v : value) :
  json_loads w doc = Some v → loads w doc = (Return v, []).
Proof. intros H. unfold loads. by rewrite H. Qed.

Lemma loads_fail (doc : string) :
  json_loads w doc = None → loads w doc = (Raise (JSONDecodeError doc), []).
Proof. intros H. unfold loads. by rewrite H. Qed.

(** When every line decodes, the comprehension yields the decoded values
    in the order of the lines. *)
Lemma decode_lines_ok (lines : list string) (records : list value) :
  Forall2 (λ line r, json_loads w (strip line) = Some r) lines records →
  list_comp (λ line, loads w (strip line)) lines = (Return records, []).
Proof.
  induction 1 as [|line r lines records Hr _ IH]; [done|].
  rewrite list_comp_cons, (loads_ok _ _ Hr), IH. reflexivity.
Qed.

(** When some line is rejected, the comprehension raises on the first
    such line and nothing is returned. *)
Lemma decode_lines_fail (lines : list string) :
  Exists (λ line, json_loads w (strip line) = None) lines →
  ∃ doc, doc ∈ strip <$> lines ∧ json_loads w doc = None ∧
         list_comp (λ line, loads w (strip line)) lines
         = (Raise (JSONDecodeError doc), []).
Proof.
  induction lines as [|line lines IH]; intros Hex; [by apply Exists_nil in Hex|].
  rewrite list_comp_cons.
  destruct (json_loads w (strip line)) as [r|] eqn:Hr.
  - rewrite (loads_ok _ _ Hr).
    apply Exists_cons in Hex as [Hex|Hex]; [congruence|].
    destruct (IH Hex) as (doc & Hin & Hdoc & ->).
    exists doc. split_and!; [by apply list_elem_of_further | done | reflexivity].
  - rewrite (loads_fail _ Hr).
    exists (strip line). split_and!; [apply list_elem_of_here | done | reflexivity].
Qed.

End Effects.

(** ** Slices and the synthetic records *)

Section Lists.

Context {A : Type}.
Implicit Types l : list A.

Lemma slice_to_nonneg l (k : Z) : 0 ≤ k → slice_to l k = take (Z.to_nat k) l.
Proof. intros H. unfold slice_to. by rewrite (proj2 (Z.ltb_ge k 0) H). Qed.

Lemma slice_to_long l (k : Z) : Z.of_nat (length l) ≤ k → slice_to l k = l.
Proof.
  intros H. rewrite slice_to_nonneg by lia. apply take_ge. lia.
Qed.

End Lists.

Lemma foldl_snoc {A B} (f : A → B) (l : list A) (acc : list B) :
  foldl (λ acc i, acc ++ [f i]) acc l = acc ++ (f <$> l).
Proof.
  revert acc. induction l as [|x l IH]; intros acc; cbn.
  - by rewrite app_nil_r.
  - rewrite IH. by rewrite <- app_assoc.
Qed.

(** The loop appends one record per index, in the order of the range. *)
Lemma test_data_loop_map (stop : Z) :
  test_data_loop stop = test_record <$> seqZ 1 (stop - 1).
Proof. unfold test_data_loop, py_range. by rewrite foldl_snoc. Qed.

(** ** The file loader *)

(** Open a call of [load] up to the body of the method that runs. *)
Ltac run_V2 :=
  unfold V2.load, V2.TestDataLoader_load, V2.JSONDataLoader_load,
    V2.HFDataLoader_load, V2.DataLoader_init;
  cbn [V2.dataset_path V2.head V2.args].

Ltac run_V1 :=
  unfold V1.load, V1.TestDataLoader_init, V1.JSONDataLoader_init,
    V1.HFDataLoader_init, V1.TestDataLoader_load, V1.JSONDataLoader_load,
    V1.HFDataLoader_load, V1.dict_get, V1.args_or_empty;
  repeat match goal with
         | |- context [default ∅ (Some ?d)] => change (default ∅ (Some d)) with d
         end.

Section FileLoader.

Context (w : World).

(** The guarded block of [JSONDataLoader.load], on a file that decodes. *)
Lemma read_ok (path msg : string) (lines : list string) (records : list value) :
  fs w path = Some lines →
  Forall2 (λ line r, json_loads w (strip line) = Some r) lines records →
  except_FileNotFoundError
    (f ← open_lines w path; list_comp (λ line, loads w (strip line)) f)
    (raise (FileNotFoundError msg))
  = (Return records, [EvOpen path]).
Proof.
  intros Hfs Hdec. unfold open_lines. rewrite Hfs, bind_return.
  by rewrite (decode_lines_ok w _ _ Hdec).
Qed.

(** The guarded block on a file with a rejected line: the decoder's
    exception is not the one the handler is for. *)
Lemma read_rejected (path msg : string) (lines : list string) :
  fs w path = Some lines →
  Exists (λ line, json_loads w (strip line) = None) lines →
  ∃ doc, doc ∈ strip <$> lines ∧ json_loads w doc = None ∧
    except_FileNotFoundError
      (f ← open_lines w path; list_comp (λ line, loads w (strip line)) f)
      (raise (FileNotFoundError msg))
    = (Raise (JSONDecodeError doc), [EvOpen path]).
Proof.
  intros Hfs Hex. destruct (decode_lines_fail w _ Hex) as (doc & Hin & Hdoc & E).
  exists doc. split_and!; [done..|].
  unfold open_lines. by rewrite Hfs, bind_return, E.
Qed.

(** The guarded block on a missing path: the handler's exception replaces
    the one of [open], and the path was tried once. *)
Lemma read_missing (path msg : string) :
  fs w path = None →
  except_FileNotFoundError
    (f ← open_lines w path; list_comp (λ line, loads w (strip line)) f)
    (raise (FileNotFoundError msg))
  = (Raise (FileNotFoundError msg), [EvOpen path]).
Proof. intros Hfs. unfold open_lines. by rewrite Hfs. Qed.

(** The last statement of [load]: no cap, or a cap that is not negative. *)
Lemma cap_applied {A} (cap : option Z) (dataset : list A) :
  (∀ h, cap = Some h → 0 ≤ h) →
  (if is_None (cap_value cap) then mret dataset
   else slice_value dataset (cap_value cap))
  = (Return (spec_truncate cap dataset), []).
Proof.
  intros Hcap. destruct cap as [h|]; [|done]. cbn.
  specialize (Hcap h eq_refl). destruct (Z.ltb_spec h (Z.of_nat (length dataset))).
  - by rewrite slice_to_nonneg.
  - by rewrite slice_to_long.
Qed.

End FileLoader.

Section FileLoaderRuns.

Context (w : World) (path : string).

Lemma cap_value_num (cap : option Z) : default VNone (VInt <$> cap) = cap_value cap.
Proof. by destruct cap. Qed.

(** The second generation on a file that decodes. *)
Lemma file_load_V2 (lines : list string) (records : list value)
    (cap : option Z) (args : gmap string value) :
  fs w path = Some lines →
  Forall2 (λ line r, json_loads w (strip line) = Some r) lines records →
  (∀ h, cap = Some h → 0 ≤ h) →
  cfg_get args "dataset_head|head" = cap_value cap →
  V2.load w (V2.JSONDataLoader (V2.DataLoader_init path args))
  = (Return (spec_truncate cap records), [EvOpen path]).
Proof.
  intros Hfs Hdec Hcap Hhead. run_V2.
  rewrite (read_ok w _ _ _ _ Hfs Hdec), bind_return, Hhead.
  by rewrite cap_applied.
Qed.

(** The first generation on a file that decodes. *)
Lemma file_load_V1 (lines : list string) (records : list value)
    (cap : option Z) (dargs : gmap string value) :
  fs w path = Some lines →
  Forall2 (λ line r, json_loads w (strip line) = Some r) lines records →
  (∀ h, cap = Some h → 0 ≤ h) →
  dargs !! "num" = VInt <$> cap →
  V1.load w (V1.JSONDataLoader_init path (Some dargs))
  = (Return (spec_truncate cap records), [EvOpen path]).
Proof.
  intros Hfs Hdec Hcap Hnum. run_V1.
  rewrite (read_ok w _ _ _ _ Hfs Hdec), bind_return, Hnum, cap_value_num.
  by rewrite cap_applied.
Qed.

(** Both generations on a file with a rejected line. *)
Lemma file_load_rejected (lines : list string) :
  fs w path = Some lines →
  Exists (λ line, json_loads w (strip line) = None) lines →
  ∃ doc, doc ∈ strip <$> lines ∧ json_loads w doc = None ∧
    (∀ args, V2.load w (V2.JSONDataLoader (V2.DataLoader_init path args))
             = (Raise (JSONDecodeError doc), [EvOpen path])) ∧
    (∀ dargs, V1.load w (V1.JSONDataLoader_init path dargs)
              = (Raise (JSONDecodeError doc), [EvOpen path])).
Proof.
  intros Hfs Hex.
  destruct (read_rejected w path ("The file " +:+ path +:+ " does not exist.")
              lines Hfs Hex) as (doc & Hin & Hdoc & E).
  exists doc. split_and!; [done..| |]; intros a.
  - run_V2. by rewrite E.
  - run_V1. by rewrite E.
Qed.

End FileLoaderRuns.

(** C4. On an existing file whose lines all decode, the file loader returns
    the decoded values in the order of the lines: the first [head] of them
    when a cap [head] (not negative) is configured and smaller than their
    number, all of them otherwise.  Both generations, the cap being [head]
    in the second and [num] in the first. *)
Theorem file_loader_returns_lines_in_order (w : World) (path : string)
    (lines : list string) (records : list value) (cap : option Z)
    (args dargs : gmap string value) :
  fs w path = Some lines →
  Forall2 (λ line r, json_loads w (strip line) = Some r) lines records →
  (∀ h, cap = Some h → 0 ≤ h) →
  cfg_get args "dataset_head|head" = cap_value cap →
  dargs !! "num" = VInt <$> cap →
  V2.load w (V2.JSONDataLoader (V2.DataLoader_init path args))
    = (Return (spec_truncate cap records), [EvOpen path])
  ∧ V1.load w (V1.JSONDataLoader_init path (Some dargs))
    = (Return (spec_truncate cap records), [EvOpen path]).
Proof.
  intros Hfs Hdec Hcap Hhead Hnum. split.
  - by apply (file_load_V2 w path lines).
  - by apply (file_load_V1 w path lines).
Qed.

Lemma file_loader_returns_lines_in_order_witness :
  V2.load Sample.world
    (V2.JSONDataLoader
       (V2.DataLoader_init "data/sample.jsonl"
          {[ "dataset_path" := VStr "data/sample.jsonl"; "head" := VInt 2 ]}))
    = (Return [Sample.obj 1; Sample.obj 2], [EvOpen "data/sample.jsonl"])
  ∧ V1.load Sample.world
      (V1.JSONDataLoader_init "data/sample.jsonl" (Some {[ "num" := VInt 2 ]}))
    = (Return [Sample.obj 1; Sample.obj 2], [EvOpen "data/sample.jsonl"]).
Proof.
  change [Sample.obj 1; Sample.obj 2]
    with (spec_truncate (Some 2) (Sample.obj <$> [1; 2; 3; 4; 5])).
  apply (file_loader_returns_lines_in_order Sample.world "data/sample.jsonl"
           Sample.sample_lines (Sample.obj <$> [1; 2; 3; 4; 5]) (Some 2)
           {[ "dataset_path" := VStr "data/sample.jsonl"; "head" := VInt 2 ]}
           {[ "num" := VInt 2 ]}).
  - reflexivity.
  - repeat constructor.
  - intros h [= <-]. lia.
  - reflexivity.
  - reflexivity.
Defined.

(** C5. On a path that does not exist, the file loader raises
    [FileNotFoundError] with a message that contains the path, after a
    single attempt to open it.  Both generations. *)
Theorem missing_file_raises_not_found (w : World) (path : string) :
  fs w path = None →
  ∃ msg, contains msg path = true ∧
    (∀ args, V2.load w (V2.JSONDataLoader (V2.DataLoader_init path args))
             = (Raise (FileNotFoundError msg), [EvOpen path])) ∧
    (∀ dargs, V1.load w (V1.JSONDataLoader_init path dargs)
              = (Raise (FileNotFoundError msg), [EvOpen path])).
Proof.
  intros Hfs. exists ("The file " +:+ path +:+ " does not exist.").
  split_and!; [apply contains_middle| |]; intros a.
  - run_V2. by rewrite (read_missing w _ _ Hfs).
  - run_V1. by rewrite (read_missing w _ _ Hfs).
Qed.

Lemma missing_file_raises_not_found_witness :
  ∃ msg, contains msg "data/none.jsonl" = true ∧
    (∀ args, V2.load Sample.world
               (V2.JSONDataLoader (V2.DataLoader_init "data/none.jsonl" args))
             = (Raise (FileNotFoundError msg), [EvOpen "data/none.jsonl"])) ∧
    (∀ dargs, V1.load Sample.world (V1.JSONDataLoader_init "data/none.jsonl" dargs)
              = (Raise (FileNotFoundError msg), [EvOpen "data/none.jsonl"])).
Proof.
  apply (missing_file_raises_not_found Sample.world "data/none.jsonl").
  reflexivity.
Defined.

(** C6. On an existing file with a line that is not valid JSON, the file
    loader raises the decoder's error for the first such line (stripped)
    and returns no records: no partial list, no skipping.  Both
    generations. *)
Theorem malformed_line_fails_whole_load (w : World) (path : string)
    (lines : list string) :
  fs w path = Some lines →
  Exists (λ line, json_loads w (strip line) = None) lines →
  ∃ doc, doc ∈ strip <$> lines ∧ json_loads w doc = None ∧
    (∀ args,
        V2.load w (V2.JSONDataLoader (V2.DataLoader_init path args))
        = (Raise (JSONDecodeError doc), [EvOpen path])
        ∧ ∀ records t,
            V2.load w (V2.JSONDataLoader (V2.DataLoader_init path args))
            ≠ (Return records, t)) ∧
    (∀ dargs,
        V1.load w (V1.JSONDataLoader_init path dargs)
        = (Raise (JSONDecodeError doc), [EvOpen path])
        ∧ ∀ records t,
            V1.load w (V1.JSONDataLoader_init path dargs) ≠ (Return records, t)).
Proof.
  intros Hfs Hex.
  destruct (file_load_rejected w path lines Hfs Hex) as (doc & Hin & Hdoc & H2 & H1).
  exists doc. split_and!; [done..| |]; intros a; split; try done.
  - intros records t. by rewrite H2.
  - intros records t. by rewrite H1.
Qed.

Lemma malformed_line_fails_whole_load_witness :
  ∃ doc, doc ∈ strip <$> [Sample.obj_text 1 +:+ Sample.nl; "{oops" +:+ Sample.nl;
                          Sample.obj_text 3 +:+ Sample.nl]
    ∧ json_loads Sample.world doc = None ∧
    (∀ args,
        V2.load Sample.world
          (V2.JSONDataLoader (V2.DataLoader_init "data/broken.jsonl" args))
        = (Raise (JSONDecodeError doc), [EvOpen "data/broken.jsonl"])
        ∧ ∀ records t,
            V2.load Sample.world
              (V2.JSONDataLoader (V2.DataLoader_init "data/broken.jsonl" args))
            ≠ (Return records, t)) ∧
    (∀ dargs,
        V1.load Sample.world (V1.JSONDataLoader_init "data/broken.jsonl" dargs)
        = (Raise (JSONDecodeError doc), [EvOpen "data/broken.jsonl"])
        ∧ ∀ records t,
            V1.load Sample.world (V1.JSONDataLoader_init "data/broken.jsonl" dargs)
            ≠ (Return records, t)).
Proof.
  apply (malformed_line_fails_whole_load Sample.world "data/broken.jsonl").
  - reflexivity.
  - apply Exists_cons_tl, Exists_cons_hd. reflexivity.
Defined.

(** C10. On an existing file with an empty or whitespace-only line, the
    file loader raises the decoder's error: the line is stripped to the
    empty text and handed to the decoder, which rejects the empty text; it
    is not skipped and no record list comes back.  Both generations. *)
Theorem blank_line_fails_load (w : World) (path : string)
    (lines : list string) :
  json_loads w EmptyString = None →
  fs w path = Some lines →
  Exists (λ line, all_space line = true) lines →
  ∃ doc, json_loads w doc = None ∧
    (∀ args,
        V2.load w (V2.JSONDataLoader (V2.DataLoader_init path args))
        = (Raise (JSONDecodeError doc), [EvOpen path])) ∧
    (∀ dargs,
        V1.load w (V1.JSONDataLoader_init path dargs)
        = (Raise (JSONDecodeError doc), [EvOpen path])).
Proof.
  intros Hempty Hfs Hex.
  assert (Exists (λ line, json_loads w (strip line) = None) lines) as Hrej.
  { eapply Exists_impl; [exact Hex|]. intros line Hsp. cbn in Hsp.
    by rewrite (strip_all_space line Hsp). }
  destruct (file_load_rejected w path lines Hfs Hrej) as (doc & _ & Hdoc & H2 & H1).
  by exists doc.
Qed.

Lemma blank_line_fails_load_witness :
  ∃ doc, json_loads Sample.world doc = None ∧
    (∀ args,
        V2.load Sample.world
          (V2.JSONDataLoader (V2.DataLoader_init "data/blank.jsonl" args))
        = (Raise (JSONDecodeError doc), [EvOpen "data/blank.jsonl"])) ∧
    (∀ dargs,
        V1.load Sample.world (V1.JSONDataLoader_init "data/blank.jsonl" dargs)
        = (Raise (JSONDecodeError doc), [EvOpen "data/blank.jsonl"])).
Proof.
  apply (blank_line_fails_load Sample.world "data/blank.jsonl"
           [Sample.obj_text 1 +:+ Sample.nl; Sample.nl;
            Sample.obj_text 2 +:+ Sample.nl]).
  - reflexivity.
  - reflexivity.
  - apply Exists_cons_tl, Exists_cons_hd. reflexivity.
Defined.

(** ** The configuration object *)

Section Configuration.

Implicit Types args : gmap string value.

Lemma cfg_get_head args :
  cfg_get args "dataset_head|head"
  = match args !! "dataset_head" with
    | Some v => v
    | None => default VNone (args !! "head")
    end.
Proof. unfold cfg_get. cbn. by destruct (args !! "dataset_head"), (args !! "head"). Qed.

Lemma cfg_get_split args :
  cfg_get args "split|=test" = default (VStr "test") (args !! "split").
Proof. unfold cfg_get. cbn. by destruct (args !! "split"). Qed.

Lemma cfg_get_subset args :
  cfg_get args "subset" = default VNone (args !! "subset").
Proof. unfold cfg_get. cbn. by destruct (args !! "subset"). Qed.

Lemma cfg_get_dataset_path args :
  cfg_get args "dataset_path|dataset"
  = match args !! "dataset_path" with
    | Some v => v
    | None => default VNone (args !! "dataset")
    end.
Proof. unfold cfg_get. cbn. by destruct (args !! "dataset_path"), (args !! "dataset"). Qed.

End Configuration.

(** ** The synthetic loader *)

Section Synthetic.

Context (w : World).

(** First generation: [num] records, for any integer [num]. *)
Lemma synthetic_V1_records (n : Z) (dargs : gmap string value) :
  dargs !! "num" = Some (VInt n) →
  V1.load w (V1.TestDataLoader_init (Some dargs))
  = (Return (test_record <$> seqZ 1 n), []).
Proof.
  intros Hnum. run_V1. rewrite Hnum. cbn.
  rewrite test_data_loop_map. by replace (n + 1 - 1) with n by lia.
Qed.

(** First generation: two records when [num] is not given. *)
Lemma synthetic_V1_default :
  V1.load w (V1.TestDataLoader_init None)
  = (Return [test_record 1; test_record 2], []).
Proof. reflexivity. Qed.

(** Second generation: [head] records for a cap other than 0. *)
Lemma synthetic_V2_records (n : Z) (path : string) (args : gmap string value) :
  n ≠ 0 →
  cfg_get args "dataset_head|head" = VInt n →
  V2.load w (V2.TestDataLoader (V2.DataLoader_init path args))
  = (Return (test_record <$> seqZ 1 n), []).
Proof.
  intros Hn Hhead. run_V2. rewrite Hhead. unfold py_or, truthy.
  rewrite (proj2 (Z.eqb_neq n 0) Hn). cbn.
  rewrite test_data_loop_map. by replace (n + 1 - 1) with n by lia.
Qed.

(** Second generation: ten records when no cap is given, and also when
    the cap is 0, which [head or 10] takes for no cap. *)
Lemma synthetic_V2_ten (path : string) (args : gmap string value) :
  cfg_get args "dataset_head|head" = VNone
  ∨ cfg_get args "dataset_head|head" = VInt 0 →
  V2.load w (V2.TestDataLoader (V2.DataLoader_init path args))
  = (Return (test_record <$> seqZ 1 10), []).
Proof.
  intros Hhead. run_V2. by destruct Hhead as [-> | ->].
Qed.

(** The records of the synthetic loaders: [n] of them for [n >= 0], the
    one at position [i] (from 1) templated with [i]. *)
Lemma synthetic_records_shape (n : Z) :
  0 ≤ n →
  Z.of_nat (length (test_record <$> seqZ 1 n)) = n ∧
  ∀ i, 1 ≤ i ≤ n →
    (test_record <$> seqZ 1 n) !! Z.to_nat (i - 1)
    = Some (VDict [ ("task_id", VStr ("test_" +:+ str_of_int i));
                    ("prompt", VStr ("test_prompt_" +:+ str_of_int i));
                    ("canonical_solution",
                      VStr ("test_solution_" +:+ str_of_int i));
                    ("test", VStr ("test_test_" +:+ str_of_int i));
                    ("entry_point", VStr ("test_entry_" +:+ str_of_int i)) ]).
Proof.
  intros Hn. split.
  - rewrite length_fmap, length_seqZ. lia.
  - intros i Hi. rewrite list_lookup_fmap, lookup_seqZ_lt by lia.
    by replace (1 + Z.of_nat (Z.to_nat (i - 1))) with i by lia.
Qed.

End Synthetic.

Lemma spec_truncate_zero {A} (l : list A) : spec_truncate (Some 0) l = [].
Proof. unfold spec_truncate. by destruct l. Qed.

Lemma length_spec_truncate {A} (cap : option Z) (l : list A) :
  (∀ h, cap = Some h → 0 ≤ h) →
  (length (spec_truncate cap l) ≤ length l)%nat ∧
  ∀ h, cap = Some h → Z.of_nat (length (spec_truncate cap l)) ≤ h.
Proof.
  intros Hcap. destruct cap as [h|]; cbn; [|split; [lia | by intros]].
  specialize (Hcap h eq_refl). destruct (Z.ltb_spec h (Z.of_nat (length l))).
  - rewrite length_take. split; [lia|]. intros ? [= <-]. lia.
  - split; [lia|]. intros ? [= <-]. lia.
Qed.

(** ** The registry loader *)

Section Registry.

Context (w : World).

Lemma dict_set_fresh (d : list (string * value)) (k : string) (v : value) :
  k ∉ d.*1 → dict_set d k v = d ++ [(k, v)].
Proof.
  induction d as [|[k' v'] d IH]; intros Hk; [done|]. cbn in *.
  apply not_elem_of_cons in Hk as [Hne Hk].
  destruct (String.eqb_spec k' k) as [->|_]; [done|]. by rewrite IH.
Qed.

Lemma dict_of_items_acc (acc items : list (string * value)) :
  NoDup (acc.*1 ++ items.*1) →
  foldl (λ d kv, dict_set d kv.1 kv.2) acc items = acc ++ items.
Proof.
  revert acc. induction items as [|[k v] items IH]; intros acc Hnd; cbn.
  - by rewrite app_nil_r.
  - rewrite dict_set_fresh.
    + rewrite IH; [by rewrite <- app_assoc|].
      rewrite fmap_app. cbn. by rewrite <- app_assoc.
    + apply NoDup_app in Hnd as (_ & Hdisj & _). intros Hin.
      apply (Hdisj _ Hin). cbn. apply list_elem_of_here.
Qed.

(** The copy of a row whose keys are distinct, as those of a mapping are,
    has the same entries in the same order. *)
Lemma dict_of_items_id (items : list (string * value)) :
  NoDup items.*1 → dict_of_items items = items.
Proof. intros Hnd. unfold dict_of_items. by rewrite dict_of_items_acc. Qed.

(** The hub is called once, with the subset only when it is true in a
    condition; its rows are copied and then capped.  Second generation. *)
Lemma registry_load_V2 (path : string) (args : gmap string value)
    (rows : list (list (string * value))) (cap : option Z) :
  hub w path (passed_name (cfg_get args "subset")) (cfg_get args "split|=test")
    = Return rows →
  (∀ h, cap = Some h → 0 ≤ h) →
  cfg_get args "dataset_head|head" = cap_value cap →
  V2.load w (V2.HFDataLoader (V2.DataLoader_init path args))
  = (Return (spec_truncate cap ((λ item, VDict (dict_of_items item)) <$> rows)),
     [EvLoadDataset path (passed_name (cfg_get args "subset"))
        (cfg_get args "split|=test")]).
Proof.
  intros Hhub Hcap Hhead. run_V2. rewrite Hhead.
  unfold passed_name in *. unfold load_dataset.
  destruct (truthy (cfg_get args "subset"));
    rewrite Hhub, bind_return, cap_applied by done; reflexivity.
Qed.

(** First generation. *)
Lemma registry_load_V1 (path : string) (dargs : gmap string value)
    (rows : list (list (string * value))) (cap : option Z) :
  hub w path (passed_name (default VNone (dargs !! "subset")))
    (default (VStr "test") (dargs !! "split")) = Return rows →
  (∀ h, cap = Some h → 0 ≤ h) →
  dargs !! "num" = VInt <$> cap →
  V1.load w (V1.HFDataLoader_init path (Some dargs))
  = (Return (spec_truncate cap ((λ item, VDict (dict_of_items item)) <$> rows)),
     [EvLoadDataset path (passed_name (default VNone (dargs !! "subset")))
        (default (VStr "test") (dargs !! "split"))]).
Proof.
  intros Hhub Hcap Hnum. run_V1. rewrite Hnum, cap_value_num.
  unfold passed_name in *. unfold load_dataset.
  destruct (truthy (default VNone (dargs !! "subset")));
    rewrite Hhub, bind_return, cap_applied by done; reflexivity.
Qed.

(** A failure of the hub comes out as it is. *)
Lemma registry_load_fails (path : string) (args : gmap string value) (e : exn) :
  hub w path (passed_name (cfg_get args "subset")) (cfg_get args "split|=test")
    = Raise e →
  V2.load w (V2.HFDataLoader (V2.DataLoader_init path args))
  = (Raise e,
     [EvLoadDataset path (passed_name (cfg_get args "subset"))
        (cfg_get args "split|=test")]).
Proof.
  intros Hhub. run_V2.
  unfold passed_name in *. unfold load_dataset.
  destruct (truthy (cfg_get args "subset")); by rewrite Hhub.
Qed.

End Registry.

(** ** The cap of 0 *)

(** With [head = 0] the file loader returns no record. *)
Lemma file_loader_zero_cap (w : World) (path : string) (lines : list string)
    (records : list value) (args : gmap string value) :
  fs w path = Some lines →
  Forall2 (λ line r, json_loads w (strip line) = Some r) lines records →
  cfg_get args "dataset_head|head" = VInt 0 →
  V2.load w (V2.JSONDataLoader (V2.DataLoader_init path args))
  = (Return [], [EvOpen path]).
Proof.
  intros Hfs Hdec Hhead.
  rewrite (file_load_V2 w path lines records (Some 0)); try done.
  - by rewrite spec_truncate_zero.
  - by intros h [= <-].
Qed.

(** With [head = 0] the registry loader returns no record. *)
Lemma registry_loader_zero_cap (w : World) (path : string)
    (rows : list (list (string * value))) (args : gmap string value) :
  hub w path (passed_name (cfg_get args "subset")) (cfg_get args "split|=test")
    = Return rows →
  cfg_get args "dataset_head|head" = VInt 0 →
  ∃ t, V2.load w (V2.HFDataLoader (V2.DataLoader_init path args)) = (Return [], t).
Proof.
  intros Hhub Hhead. eexists.
  rewrite (registry_load_V2 w path args rows (Some 0)); try done.
  - by rewrite spec_truncate_zero.
  - by intros h [= <-].
Qed.

(** C1. The synthetic loader of the second generation does not return the
    empty sequence for [head = 0]: [n = self.head or 10] takes the 0 for an
    absent cap, and the ten default records come back. *)
Theorem synthetic_loader_zero_cap_returns_ten (w : World) :
  V2.load_testdata w {[ "head" := VInt 0 ]}
    = (Return (test_record <$> seqZ 1 10), [])
  ∧ V2.load_testdata w {[ "head" := VInt 0 ]} ≠ (Return [], []).
Proof. split; [reflexivity | discriminate]. Qed.

(** C2. With the cap [head = 0] the synthetic loader of the second
    generation returns ten records, more than the cap. *)
Theorem synthetic_loader_exceeds_zero_cap (w : World) :
  ∃ records,
    V2.load w (V2.TestDataLoader
                 (V2.DataLoader_init "dataset/dummy" {[ "head" := VInt 0 ]}))
      = (Return records, [])
    ∧ length records = 10%nat
    ∧ ¬ (Z.of_nat (length records) ≤ 0).
Proof.
  exists (test_record <$> seqZ 1 10). split_and!; [reflexivity..|].
  rewrite length_fmap, length_seqZ. lia.
Qed.

(** The file and registry loaders keep to a cap that is not negative, and
    never return more than the data holds. *)
Lemma capped_loaders_length (w : World) (path : string)
    (args : gmap string value) (cap : option Z) :
  (∀ h, cap = Some h → 0 ≤ h) →
  cfg_get args "dataset_head|head" = cap_value cap →
  (∀ lines records,
      fs w path = Some lines →
      Forall2 (λ line r, json_loads w (strip line) = Some r) lines records →
      ∃ result,
        V2.load w (V2.JSONDataLoader (V2.DataLoader_init path args))
          = (Return result, [EvOpen path])
        ∧ (length result ≤ length lines)%nat
        ∧ ∀ h, cap = Some h → Z.of_nat (length result) ≤ h) ∧
  (∀ rows,
      hub w path (passed_name (cfg_get args "subset")) (cfg_get args "split|=test")
        = Return rows →
      ∃ result t,
        V2.load w (V2.HFDataLoader (V2.DataLoader_init path args))
          = (Return result, t)
        ∧ (length result ≤ length rows)%nat
        ∧ ∀ h, cap = Some h → Z.of_nat (length result) ≤ h).
Proof.
  intros Hcap Hhead. split.
  - intros lines records Hfs Hdec. exists (spec_truncate cap records).
    destruct (length_spec_truncate cap records Hcap) as [Hlen Hle].
    split_and!; [|by rewrite (Forall2_length _ _ _ Hdec)|done].
    by apply (file_load_V2 w path lines).
  - intros rows Hhub. eexists _, _.
    rewrite (registry_load_V2 w path args rows cap) by done.
    split; [reflexivity|].
    destruct (length_spec_truncate cap
                ((λ item, VDict (dict_of_items item)) <$> rows) Hcap) as [Hlen Hle].
    by rewrite length_fmap in Hlen.
Qed.

(** C7. For the count 0 the two generations of the synthetic loader differ:
    the first returns the empty sequence, the second the ten default
    records [test_1] to [test_10]. *)
Theorem synthetic_loader_zero_count_differs (w : World) :
  V1.load w (V1.TestDataLoader_init (Some {[ "num" := VInt 0 ]})) = (Return [], [])
  ∧ V2.load w (V2.TestDataLoader
                 (V2.DataLoader_init "dataset/dummy" {[ "head" := VInt 0 ]}))
    = (Return (test_record <$> [1; 2; 3; 4; 5; 6; 7; 8; 9; 10]), []).
Proof. split; reflexivity. Qed.

(** ** The dispatcher and the factory *)

(** The kind [FromFile] is chosen exactly for the identifiers that are some
    stem followed by [.jsonl]. *)
Lemma spec_select_file (s : string) :
  spec_select (Some s) = FromFile ↔ ∃ stem, s = stem +:+ ".jsonl".
Proof.
  unfold spec_select. rewrite <- endswith_suffix, <- endswith_spec.
  by destruct (endswith s ".jsonl").
Qed.

(** C3. The dispatcher chooses the loader from the dataset identifier alone:
    the synthetic loader when it is absent, the file loader when it ends
    with [.jsonl], the registry loader otherwise; it builds that loader on
    the whole configuration and returns what its [load] returns. *)
Theorem dispatcher_selects_by_identifier (w : World) (args : gmap string value)
    (identifier : option string) :
  identifier_of (cfg_get args "dataset_path|dataset") = Some identifier →
  V2.load_testdata w args = spec_dispatch w args identifier.
Proof.
  unfold V2.load_testdata, spec_dispatch, spec_select.
  destruct (cfg_get args "dataset_path|dataset") as [| | |s| |];
    intros [= <-]; [done|].
  rewrite <- endswith_suffix. cbn [default from_option id].
  by destruct (endswith s ".jsonl").
Qed.

Lemma dispatcher_selects_by_identifier_witness :
  V2.load_testdata Sample.world
    {[ "dataset_path" := VStr "data/sample.jsonl"; "head" := VInt 2 ]}
  = spec_dispatch Sample.world
      {[ "dataset_path" := VStr "data/sample.jsonl"; "head" := VInt 2 ]}
      (Some "data/sample.jsonl")
  ∧ spec_select (Some "data/sample.jsonl") = FromFile.
Proof.
  split; [|reflexivity].
  apply (dispatcher_selects_by_identifier Sample.world
           {[ "dataset_path" := VStr "data/sample.jsonl"; "head" := VInt 2 ]}
           (Some "data/sample.jsonl")).
  reflexivity.
Defined.

(** An identifier that is neither absent nor a string has no [endswith]. *)
Lemma dispatcher_identifier_not_a_string (w : World) (args : gmap string value) :
  identifier_of (cfg_get args "dataset_path|dataset") = None →
  V2.load_testdata w args = (Raise AttributeError, []).
Proof.
  unfold V2.load_testdata.
  by destruct (cfg_get args "dataset_path|dataset").
Qed.


(** C8 (as stated, refuted). With the subset configured as the empty string
    the hub is called without a subset, though one is configured. *)
Lemma registry_empty_subset_left_out :
  stated_name
    (cfg_get {[ "dataset_path" := VStr "org/dataset"; "subset" := VStr EmptyString ]}
       "subset")
    = Some (VStr EmptyString)
  ∧ (V2.load_testdata Sample.world
       {[ "dataset_path" := VStr "org/dataset"; "subset" := VStr EmptyString ]}).2
    = [EvLoadDataset "org/dataset" None (VStr "test")]
  ∧ ¬ ∀ (w : World) (path : string) (args : gmap string value),
        (V2.load w (V2.HFDataLoader (V2.DataLoader_init path args))).2
        = [EvLoadDataset path (stated_name (cfg_get args "subset"))
             (cfg_get args "split|=test")].
Proof.
  split_and!; [reflexivity..|]. intros H.
  specialize (H Sample.world "org/dataset"
                {[ "dataset_path" := VStr "org/dataset";
                   "subset" := VStr EmptyString ]}).
  vm_compute in H. discriminate H.
Qed.

(** C8 (amended). When the hub answers, the registry loader has called it
    once, with the configured identifier, with the configured subset if
    that is true in a condition (not absent, [None] or empty) and without
    a subset otherwise, and with the configured split, ["test"] when none
    is configured; the result is the copies of the rows as plain mappings,
    cut to the cap (not negative) when one is configured.  A row with
    distinct keys is copied entry by entry.  Both generations, each on its
    own arguments: the configuration [args] with the cap [head] for the
    second, the dict [dargs] with the cap [num] for the first. *)
Theorem registry_loader_call_and_result (w : World) (path : string)
    (args dargs : gmap string value) (rows rows1 : list (list (string * value)))
    (cap cap1 : option Z) :
  hub w path (passed_name (default VNone (args !! "subset")))
    (default (VStr "test") (args !! "split")) = Return rows →
  (∀ h, cap = Some h → 0 ≤ h) →
  cfg_get args "dataset_head|head" = cap_value cap →
  hub w path (passed_name (default VNone (dargs !! "subset")))
    (default (VStr "test") (dargs !! "split")) = Return rows1 →
  (∀ h, cap1 = Some h → 0 ≤ h) →
  dargs !! "num" = VInt <$> cap1 →
  V2.load w (V2.HFDataLoader (V2.DataLoader_init path args))
    = (Return (spec_truncate cap ((λ item, VDict (dict_of_items item)) <$> rows)),
       [EvLoadDataset path (passed_name (default VNone (args !! "subset")))
          (default (VStr "test") (args !! "split"))])
  ∧ V1.load w (V1.HFDataLoader_init path (Some dargs))
    = (Return (spec_truncate cap1
                 ((λ item, VDict (dict_of_items item)) <$> rows1)),
       [EvLoadDataset path (passed_name (default VNone (dargs !! "subset")))
          (default (VStr "test") (dargs !! "split"))])
  ∧ (Forall (λ row, NoDup row.*1) rows →
     (λ item, VDict (dict_of_items item)) <$> rows = VDict <$> rows).
Proof.
  intros Hhub Hcap Hhead Hhub1 Hcap1 Hnum. split_and!.
  - rewrite <- cfg_get_subset, <- cfg_get_split in *.
    by apply registry_load_V2.
  - by apply registry_load_V1.
  - intros Hrows. apply Forall_fmap_ext_1.
    eapply Forall_impl; [exact Hrows|]. intros row Hnd. cbn.
    by rewrite dict_of_items_id.
Qed.

Lemma registry_loader_call_and_result_witness :
  V2.load Sample.world
    (V2.HFDataLoader
       (V2.DataLoader_init "org/dataset"
          {[ "dataset_path" := VStr "org/dataset"; "subset" := VStr "en";
             "split" := VStr "validation"; "head" := VInt 3 ]}))
    = (Return (spec_truncate (Some 3)
                 ((λ item, VDict (dict_of_items item)) <$> Sample.rows)),
       [EvLoadDataset "org/dataset" (Some (VStr "en")) (VStr "validation")])
  ∧ V1.load Sample.world
      (V1.HFDataLoader_init "org/dataset" (Some {[ "num" := VInt 2 ]}))
    = (Return (spec_truncate (Some 2)
                 ((λ item, VDict (dict_of_items item)) <$> Sample.rows)),
       [EvLoadDataset "org/dataset" None (VStr "test")])
  ∧ (Forall (λ row, NoDup row.*1) Sample.rows →
     (λ item, VDict (dict_of_items item)) <$> Sample.rows = VDict <$> Sample.rows).
Proof.
  refine (registry_loader_call_and_result Sample.world "org/dataset"
            {[ "dataset_path" := VStr "org/dataset"; "subset" := VStr "en";
               "split" := VStr "validation"; "head" := VInt 3 ]}
            {[ "num" := VInt 2 ]}
            Sample.rows Sample.rows (Some 3) (Some 2) _ _ _ _ _ _).
  - reflexivity.
  - intros h [= <-]. lia.
  - reflexivity.
  - reflexivity.
  - intros h [= <-]. lia.
  - reflexivity.
Defined.

(** * Further properties of the loaders *)

(** ** What the loaders call *)

Section Calls.

Context (w : World).

(** Decoding the lines makes no call, and ends in the records or in the
    decoder's error. *)
Lemma decode_lines_cases (lines : list string) :
  (∃ records, list_comp (λ line, loads w (strip line)) lines = (Return records, []))
  ∨ (∃ doc, list_comp (λ line, loads w (strip line)) lines
            = (Raise (JSONDecodeError doc), [])).
Proof.
  induction lines as [|line lines IH]; [left; by exists []|].
  rewrite list_comp_cons.
  destruct (json_loads w (strip line)) as [r|] eqn:Hr.
  - rewrite (loads_ok w _ _ Hr).
    destruct IH as [[records ->]|[doc ->]]; [left; by eexists | right; by eexists].
  - rewrite (loads_fail w _ Hr). right. by eexists.
Qed.

(** The guarded block on an existing file: the outcome of the decoding,
    after one [open]. *)
Lemma read_existing (path msg : string) (lines : list string) :
  fs w path = Some lines →
  except_FileNotFoundError
    (f ← open_lines w path; list_comp (λ line, loads w (strip line)) f)
    (raise (FileNotFoundError msg))
  = ((list_comp (λ line, loads w (strip line)) lines).1, [EvOpen path]).
Proof.
  intros Hfs. unfold open_lines. rewrite Hfs, bind_return.
  by destruct (decode_lines_cases lines) as [[records ->]|[doc ->]].
Qed.

Lemma bind_mret {A B} (a : A) (f : A → io B) : (mret a ≫= f) = f a.
Proof. change (mret a) with (Return a, @nil event). rewrite bind_return. by destruct (f a). Qed.

Lemma slice_value_calls {A} (dataset : list A) (k : value) :
  (slice_value dataset k).2 = [].
Proof. by destruct k. Qed.

Lemma cap_calls {A} (dataset : list A) (k : value) :
  (if is_None k then io_ret dataset else slice_value dataset k).2 = [].
Proof. destruct (is_None k); [done | apply slice_value_calls]. Qed.

Lemma bind_calls {A B} (r : outcome A) (t : list event) (f : A → io B) :
  (∀ a, (f a).2 = []) → ((r, t) ≫= f).2 = t.
Proof.
  intros Hf. destruct r as [a|e]; [|done].
  rewrite bind_return. specialize (Hf a). destruct (f a) as [r' t']. cbn in *.
  subst. apply app_nil_r.
Qed.

(** The file loader opens its path once and calls nothing else, whatever
    comes of it. *)
Lemma file_loader_calls (self : V2.DataLoader_base) :
  (V2.JSONDataLoader_load w self).2 = [EvOpen (V2.dataset_path self)].
Proof.
  unfold V2.JSONDataLoader_load.
  destruct (fs w (V2.dataset_path self)) as [lines|] eqn:Hfs.
  - rewrite (read_existing _ _ _ Hfs). apply bind_calls. intros a. apply cap_calls.
  - by rewrite (read_missing w _ _ Hfs).
Qed.

(** The registry loader calls the hub once and nothing else. *)
Lemma registry_loader_calls (self : V2.DataLoader_base) :
  (V2.HFDataLoader_load w self).2
  = [EvLoadDataset (V2.dataset_path self)
       (passed_name (cfg_get (V2.args self) "subset"))
       (cfg_get (V2.args self) "split|=test")].
Proof.
  unfold V2.HFDataLoader_load, passed_name, load_dataset.
  destruct (truthy (cfg_get (V2.args self) "subset"));
    apply bind_calls; intros a; apply cap_calls.
Qed.

(** The synthetic loader calls nothing. *)
Lemma synthetic_loader_calls (self : V2.DataLoader_base) :
  (V2.TestDataLoader_load self).2 = [].
Proof.
  unfold V2.TestDataLoader_load, add_one.
  by destruct (as_int (py_or (V2.head self) (VInt 10))).
Qed.

End Calls.

(** X1. Whatever its outcome, the dispatcher of the second generation makes
    no call for an absent identifier, exactly one [open] of the identifier
    when it ends with [.jsonl], and exactly one hub call for it otherwise:
    the file loader never reaches the hub and the registry loader never
    reads a file. *)
Theorem dispatcher_external_calls (w : World) (args : gmap string value)
    (identifier : option string) :
  identifier_of (cfg_get args "dataset_path|dataset") = Some identifier →
  (V2.load_testdata w args).2
  = match identifier with
    | None => []
    | Some s =>
        if endswith s ".jsonl" then [EvOpen s]
        else [EvLoadDataset s (passed_name (cfg_get args "subset"))
                (cfg_get args "split|=test")]
    end.
Proof.
  unfold V2.load_testdata.
  destruct (cfg_get args "dataset_path|dataset") as [| | |s| |];
    intros [= <-].
  - apply synthetic_loader_calls.
  - destruct (endswith s ".jsonl"); cbn [V2.load].
    + apply file_loader_calls.
    + apply registry_loader_calls.
Qed.

Lemma dispatcher_external_calls_witness :
  (V2.load_testdata Sample.world {[ "dataset" := VStr "data/broken.jsonl" ]}).2
  = [EvOpen "data/broken.jsonl"].
Proof.
  apply (dispatcher_external_calls Sample.world
           {[ "dataset" := VStr "data/broken.jsonl" ]} (Some "data/broken.jsonl")).
  reflexivity.
Defined.

(** X2. Whatever its outcome, the first [load_testdata] calls nothing
    unless the identifier is a string other than ["test"] and
    [dataset_args] is a dict that holds the key [dataset_head|head] as it
    is written; then it opens the identifier once when it ends with
    [.jsonl], and otherwise calls the hub once if the dict also holds the
    keys [split|=test] and [subset], and calls nothing if it does not. *)
Theorem factory_external_calls (w : World) (dataset_path : value)
    (dataset_args : option (gmap string value)) :
  (V1.load_testdata w dataset_path dataset_args).2
  = match dataset_path, dataset_args with
    | VStr s, Some d =>
        if String.eqb s "test" then []
        else match d !! "dataset_head|head" with
             | None => []
             | Some _ =>
                 if endswith s ".jsonl" then [EvOpen s]
                 else match d !! "split|=test", d !! "subset" with
                      | Some split, Some subset =>
                          [EvLoadDataset s (passed_name subset) split]
                      | _, _ => []
                      end
             end
    | _, _ => []
    end.
Proof.
  unfold V1.load_testdata, V1.create.
  destruct dataset_path as [| | |s| |]; try done.
  destruct (String.eqb s "test"); [by destruct dataset_args|].
  unfold V1.call_with_two, V1.dict_item.
  destruct dataset_args as [d|]; [|by destruct (endswith s ".jsonl")].
  destruct (d !! "dataset_head|head") as [v|] eqn:Hv;
    [|by destruct (endswith s ".jsonl")].
  destruct (endswith s ".jsonl"); rewrite !bind_mret;
    unfold V1.load_rebound; cbn [V1.rebound_class V1.rebound_self].
  - apply (file_loader_calls w
             {| V2.dataset_path := s; V2.args := d; V2.head := v |}).
  - unfold V1.HFDataLoader_load_on_dict, V1.dict_item.
    cbn [V2.dataset_path V2.args V2.head].
    destruct (d !! "split|=test") as [split|]; [|done]. rewrite bind_mret.
    destruct (d !! "subset") as [subset|]; [|done]. rewrite bind_mret.
    unfold passed_name, load_dataset.
    destruct (truthy subset); apply bind_calls; intros a; apply cap_calls.
Qed.

(** ** Caps that are negative, or no integers *)

Lemma slice_to_negative {A} (l : list A) (h : Z) :
  h < 0 → slice_to l h = take (length l - Z.to_nat (- h)) l.
Proof.
  intros Hh. unfold slice_to. rewrite (proj2 (Z.ltb_lt h 0) Hh).
  f_equal. lia.
Qed.

Lemma cap_int_applied {A} (dataset : list A) (h : Z) :
  (if is_None (VInt h) then mret dataset else slice_value dataset (VInt h))
  = (Return (slice_to dataset h), []).
Proof. reflexivity. Qed.

Lemma cap_not_integer {A} (dataset : list A) (v : value) :
  v ≠ VNone → as_int v = None →
  (if is_None v then mret dataset else slice_value dataset v)
  = (Raise TypeError, []).
Proof. intros Hv Hi. by destruct v. Qed.

(** X3. When the hub raises, the registry loader raises the same exception
    after that one call and returns no records; nothing catches or rewraps
    it.  Both generations. *)
Theorem registry_failure_propagates (w : World) (path : string)
    (args : gmap string value) (e : exn) :
  hub w path (passed_name (default VNone (args !! "subset")))
    (default (VStr "test") (args !! "split")) = Raise e →
  V2.load w (V2.HFDataLoader (V2.DataLoader_init path args))
    = (Raise e,
       [EvLoadDataset path (passed_name (default VNone (args !! "subset")))
          (default (VStr "test") (args !! "split"))])
  ∧ V1.load w (V1.HFDataLoader_init path (Some args))
    = (Raise e,
       [EvLoadDataset path (passed_name (default VNone (args !! "subset")))
          (default (VStr "test") (args !! "split"))]).
Proof.
  intros Hhub. split.
  - rewrite <- cfg_get_subset, <- cfg_get_split in *.
    by apply registry_load_fails.
  - run_V1. unfold passed_name in *. unfold load_dataset.
    destruct (truthy (default VNone (args !! "subset"))); by rewrite Hhub.
Qed.

Lemma registry_failure_propagates_witness :
  V2.load Sample.world
    (V2.HFDataLoader (V2.DataLoader_init "org/missing" {[ "head" := VInt 1 ]}))
    = (Raise (HubError "dataset not found"),
       [EvLoadDataset "org/missing" None (VStr "test")])
  ∧ V1.load Sample.world
      (V1.HFDataLoader_init "org/missing" (Some {[ "head" := VInt 1 ]}))
    = (Raise (HubError "dataset not found"),
       [EvLoadDataset "org/missing" None (VStr "test")]).
Proof.
  refine (registry_failure_propagates Sample.world "org/missing"
            {[ "head" := VInt 1 ]} (HubError "dataset not found") _).
  reflexivity.
Defined.

(** X4. A negative cap on the file loader counts from the end: with the cap
    [h < 0] the load returns all decoded records but the last [-h], and
    none when the file has no more than [-h].  Both generations. *)
Theorem file_loader_negative_cap (w : World) (path : string)
    (lines : list string) (records : list value) (h : Z)
    (args dargs : gmap string value) :
  fs w path = Some lines →
  Forall2 (λ line r, json_loads w (strip line) = Some r) lines records →
  h < 0 →
  cfg_get args "dataset_head|head" = VInt h →
  dargs !! "num" = Some (VInt h) →
  V2.load w (V2.JSONDataLoader (V2.DataLoader_init path args))
    = (Return (take (length records - Z.to_nat (- h)) records), [EvOpen path])
  ∧ V1.load w (V1.JSONDataLoader_init path (Some dargs))
    = (Return (take (length records - Z.to_nat (- h)) records), [EvOpen path]).
Proof.
  intros Hfs Hdec Hh Hhead Hnum. split.
  - run_V2. rewrite (read_ok w _ _ _ _ Hfs Hdec), bind_return, Hhead.
    by rewrite cap_int_applied, slice_to_negative.
  - run_V1. rewrite (read_ok w _ _ _ _ Hfs Hdec), bind_return, Hnum.
    cbn [default from_option id].
    by rewrite cap_int_applied, slice_to_negative.
Qed.

Lemma file_loader_negative_cap_witness :
  V2.load Sample.world
    (V2.JSONDataLoader
       (V2.DataLoader_init "data/sample.jsonl" {[ "head" := VInt (-2) ]}))
    = (Return [Sample.obj 1; Sample.obj 2; Sample.obj 3],
       [EvOpen "data/sample.jsonl"])
  ∧ V1.load Sample.world
      (V1.JSONDataLoader_init "data/sample.jsonl" (Some {[ "num" := VInt (-2) ]}))
    = (Return [Sample.obj 1; Sample.obj 2; Sample.obj 3],
       [EvOpen "data/sample.jsonl"]).
Proof.
  refine (file_loader_negative_cap Sample.world "data/sample.jsonl"
            Sample.sample_lines (Sample.obj <$> [1; 2; 3; 4; 5]) (-2)
            {[ "head" := VInt (-2) ]} {[ "num" := VInt (-2) ]} _ _ _ _ _).
  - reflexivity.
  - repeat constructor.
  - lia.
  - reflexivity.
  - reflexivity.
Defined.

(** X5. A negative cap on the registry loader counts from the end in the
    same way: all copied rows but the last [-h].  Both generations, each on
    its own arguments and its own cap. *)
Theorem registry_loader_negative_cap (w : World) (path : string)
    (args dargs : gmap string value) (rows rows1 : list (list (string * value)))
    (h h1 : Z) :
  hub w path (passed_name (default VNone (args !! "subset")))
    (default (VStr "test") (args !! "split")) = Return rows →
  h < 0 →
  cfg_get args "dataset_head|head" = VInt h →
  hub w path (passed_name (default VNone (dargs !! "subset")))
    (default (VStr "test") (dargs !! "split")) = Return rows1 →
  h1 < 0 →
  dargs !! "num" = Some (VInt h1) →
  V2.load w (V2.HFDataLoader (V2.DataLoader_init path args))
    = (Return (take (length rows - Z.to_nat (- h))
                 ((λ item, VDict (dict_of_items item)) <$> rows)),
       [EvLoadDataset path (passed_name (default VNone (args !! "subset")))
          (default (VStr "test") (args !! "split"))])
  ∧ V1.load w (V1.HFDataLoader_init path (Some dargs))
    = (Return (take (length rows1 - Z.to_nat (- h1))
                 ((λ item, VDict (dict_of_items item)) <$> rows1)),
       [EvLoadDataset path (passed_name (default VNone (dargs !! "subset")))
          (default (VStr "test") (dargs !! "split"))]).
Proof.
  intros Hhub Hh Hhead Hhub1 Hh1 Hnum. split.
  - run_V2. rewrite Hhead, cfg_get_subset, cfg_get_split.
    unfold passed_name in *. unfold load_dataset.
    destruct (truthy (default VNone (args !! "subset")));
      rewrite Hhub, bind_return, cap_int_applied, slice_to_negative by done;
      by rewrite length_fmap.
  - run_V1. rewrite Hnum. cbn [default from_option id].
    unfold passed_name in *. unfold load_dataset.
    destruct (truthy (default VNone (dargs !! "subset")));
      rewrite Hhub1, bind_return, cap_int_applied, slice_to_negative by done;
      by rewrite length_fmap.
Qed.

Lemma registry_loader_negative_cap_witness :
  V2.load Sample.world
    (V2.HFDataLoader
       (V2.DataLoader_init "org/dataset"
          {[ "dataset_path" := VStr "org/dataset"; "head" := VInt (-3) ]}))
    = (Return [VDict [("text", VStr "a"); ("label", VInt 0)]],
       [EvLoadDataset "org/dataset" None (VStr "test")])
  ∧ V1.load Sample.world
      (V1.HFDataLoader_init "org/dataset"
         (Some {[ "subset" := VStr "en"; "num" := VInt (-1) ]}))
    = (Return [VDict [("text", VStr "a"); ("label", VInt 0)];
               VDict [("text", VStr "b"); ("label", VInt 1)];
               VDict [("text", VStr "c"); ("label", VInt 0)]],
       [EvLoadDataset "org/dataset" (Some (VStr "en")) (VStr "test")]).
Proof.
  refine (registry_loader_negative_cap Sample.world "org/dataset"
            {[ "dataset_path" := VStr "org/dataset"; "head" := VInt (-3) ]}
            {[ "subset" := VStr "en"; "num" := VInt (-1) ]}
            Sample.rows Sample.rows (-3) (-1) _ _ _ _ _ _).
  - reflexivity.
  - lia.
  - reflexivity.
  - reflexivity.
  - lia.
  - reflexivity.
Defined.

(** X6. A cap that is neither [None] nor an integer (a string, a list, a
    dict) makes the file loader raise [TypeError], and only after the file
    has been opened and all its lines decoded.  Both generations. *)
Theorem file_loader_cap_not_integer (w : World) (path : string)
    (lines : list string) (records : list value) (v : value)
    (args dargs : gmap string value) :
  fs w path = Some lines →
  Forall2 (λ line r, json_loads w (strip line) = Some r) lines records →
  v ≠ VNone → as_int v = None →
  cfg_get args "dataset_head|head" = v →
  dargs !! "num" = Some v →
  V2.load w (V2.JSONDataLoader (V2.DataLoader_init path args))
    = (Raise TypeError, [EvOpen path])
  ∧ V1.load w (V1.JSONDataLoader_init path (Some dargs))
    = (Raise TypeError, [EvOpen path]).
Proof.
  intros Hfs Hdec Hv Hi Hhead Hnum. split.
  - run_V2. rewrite (read_ok w _ _ _ _ Hfs Hdec), bind_return, Hhead.
    by rewrite cap_not_integer.
  - run_V1. rewrite (read_ok w _ _ _ _ Hfs Hdec), bind_return, Hnum.
    cbn [default from_option id]. by rewrite cap_not_integer.
Qed.

Lemma file_loader_cap_not_integer_witness :
  V2.load Sample.world
    (V2.JSONDataLoader
       (V2.DataLoader_init "data/sample.jsonl" {[ "head" := VStr "2" ]}))
    = (Raise TypeError, [EvOpen "data/sample.jsonl"])
  ∧ V1.load Sample.world
      (V1.JSONDataLoader_init "data/sample.jsonl" (Some {[ "num" := VStr "2" ]}))
    = (Raise TypeError, [EvOpen "data/sample.jsonl"]).
Proof.
  refine (file_loader_cap_not_integer Sample.world "data/sample.jsonl"
            Sample.sample_lines (Sample.obj <$> [1; 2; 3; 4; 5]) (VStr "2")
            {[ "head" := VStr "2" ]} {[ "num" := VStr "2" ]} _ _ _ _ _ _).
  - reflexivity.
  - repeat constructor.
  - discriminate.
  - reflexivity.
  - reflexivity.
  - reflexivity.
Defined.

(** X7. The synthetic loader of the second generation returns its ten
    default records for every cap that is false in a condition: [None], 0,
    [False], the empty string, the empty list, the empty dict. *)
Theorem synthetic_loader_falsy_cap_default (w : World) (path : string)
    (args : gmap string value) :
  truthy (cfg_get args "dataset_head|head") = false →
  V2.load w (V2.TestDataLoader (V2.DataLoader_init path args))
  = (Return (test_record <$> seqZ 1 10), []).
Proof. intros Hf. run_V2. unfold py_or. by rewrite Hf. Qed.

Lemma synthetic_loader_falsy_cap_default_witness :
  V2.load Sample.world
    (V2.TestDataLoader
       (V2.DataLoader_init "dataset/dummy" {[ "head" := VStr EmptyString ]}))
  = (Return (test_record <$> seqZ 1 10), []).
Proof.
  apply (synthetic_loader_falsy_cap_default Sample.world "dataset/dummy"
           {[ "head" := VStr EmptyString ]}).
  reflexivity.
Defined.

(** X8. The synthetic loader of the first generation raises [TypeError]
    for a [num] that cannot be added to 1, the explicit [None] among them:
    only the missing key gives the default count.  No record is returned
    and nothing is called. *)
Theorem synthetic_V1_count_not_integer (w : World) (v : value)
    (dargs : gmap string value) :
  as_int v = None →
  dargs !! "num" = Some v →
  V1.load w (V1.TestDataLoader_init (Some dargs)) = (Raise TypeError, []).
Proof.
  intros Hi Hnum. run_V1. rewrite Hnum. cbn [default from_option id].
  unfold add_one. by rewrite Hi.
Qed.

Lemma synthetic_V1_count_not_integer_witness :
  V1.load Sample.world (V1.TestDataLoader_init (Some {[ "num" := VNone ]}))
  = (Raise TypeError, []).
Proof.
  apply (synthetic_V1_count_not_integer Sample.world VNone {[ "num" := VNone ]});
    reflexivity.
Defined.

(** X9. The synthetic loader of the second generation raises [TypeError]
    for a [head] that is true in a condition and cannot be added to 1 (a
    non-empty string, list or dict).  No record is returned and nothing is
    called. *)
Theorem synthetic_V2_count_not_integer (w : World) (v : value) (path : string)
    (args : gmap string value) :
  as_int v = None →
  truthy v = true →
  cfg_get args "dataset_head|head" = v →
  V2.load w (V2.TestDataLoader (V2.DataLoader_init path args))
  = (Raise TypeError, []).
Proof.
  intros Hi Ht Hhead. run_V2. rewrite Hhead. unfold py_or.
  rewrite Ht. unfold add_one. by rewrite Hi.
Qed.

Lemma synthetic_V2_count_not_integer_witness :
  V2.load Sample.world
    (V2.TestDataLoader (V2.DataLoader_init "dataset/dummy" {[ "head" := VStr "3" ]}))
  = (Raise TypeError, []).
Proof.
  apply (synthetic_V2_count_not_integer Sample.world (VStr "3") "dataset/dummy"
           {[ "head" := VStr "3" ]}); reflexivity.
Defined.

(** ** The synthetic records *)

Lemma to_int_not_nil (z : Z) :
  Z.to_int z ≠ Decimal.Pos Decimal.Nil ∧ Z.to_int z ≠ Decimal.Neg Decimal.Nil.
Proof.
  split; intros H; pose proof (DecimalZ.of_to z) as Hz; rewrite H in Hz;
    cbn in Hz; subst z; discriminate H.
Qed.

(** Different integers are written differently. *)
Lemma str_of_int_inj (i j : Z) : str_of_int i = str_of_int j → i = j.
Proof.
  unfold str_of_int. intros H. apply DecimalZ.to_int_inj.
  destruct (to_int_not_nil i) as [Hi1 Hi2], (to_int_not_nil j) as [Hj1 Hj2].
  pose proof (NilZero.isi _ Hi1 Hi2) as Ei.
  pose proof (NilZero.isi _ Hj1 Hj2) as Ej.
  rewrite H in Ei. congruence.
Qed.

Lemma test_record_task_id (i : Z) :
  value_get (test_record i) "task_id" = Some (VStr ("test_" +:+ str_of_int i)).
Proof. reflexivity. Qed.

Lemma task_ids_NoDup (stop : Z) :
  NoDup ((λ r, value_get r "task_id") <$> test_data_loop stop).
Proof.
  rewrite test_data_loop_map, <- list_fmap_compose.
  apply NoDup_fmap_2_strong; [|apply NoDup_seqZ].
  intros i j _ _ H. unfold compose in H. rewrite !test_record_task_id in H.
  apply str_of_int_inj, (inj (String.app "test_")). congruence.
Qed.

(** X10. Whatever the count, the records a synthetic loader returns have
    pairwise different [task_id]s, and the loader has called nothing.  Any
    loader object of either generation. *)
Theorem synthetic_task_ids_distinct (w : World) (records : list value)
    (t : list event) (dataset_args : gmap string value) (dataset_num : value)
    (self : V2.DataLoader_base) :
  V1.load w (V1.TestDataLoader dataset_args dataset_num) = (Return records, t)
  ∨ V2.load w (V2.TestDataLoader self) = (Return records, t) →
  NoDup ((λ r, value_get r "task_id") <$> records) ∧ t = [].
Proof.
  cbn [V1.load V2.load]. unfold V1.TestDataLoader_load, V2.TestDataLoader_load.
  unfold add_one. intros [H|H].
  - destruct (as_int dataset_num) as [z|]; [|discriminate].
    rewrite bind_mret in H. injection H as <- <-.
    split; [apply task_ids_NoDup | done].
  - destruct (as_int _) as [z|]; [|discriminate].
    rewrite bind_mret in H. injection H as <- <-.
    split; [apply task_ids_NoDup | done].
Qed.

Lemma synthetic_task_ids_distinct_witness :
  NoDup ((λ r, value_get r "task_id") <$> (test_record <$> seqZ 1 3))
  ∧ @nil event = [].
Proof.
  apply (synthetic_task_ids_distinct Sample.world (test_record <$> seqZ 1 3) []
           ∅ (VInt 3) (V2.DataLoader_init "dataset/dummy" {[ "head" := VInt 3 ]})).
  left. reflexivity.
Defined.

Lemma synthetic_prefix (n m : Z) :
  n ≤ m → (test_record <$> seqZ 1 n) `prefix_of` (test_record <$> seqZ 1 m).
Proof.
  intros Hle. destruct (Z.le_gt_cases n 0) as [Hn0|Hn0].
  - rewrite (seqZ_nil 1 n) by done. apply prefix_nil.
  - replace m with (n + (m - n)) by lia. rewrite seqZ_app by lia.
    rewrite fmap_app. by apply prefix_app_r.
Qed.

(** X11. In the first generation a smaller count gives a prefix of what a
    larger count gives: for [n <= m] the records for [num = n] are the
    first records for [num = m]. *)
Theorem synthetic_V1_records_prefix (w : World) (n m : Z)
    (dargs_n dargs_m : gmap string value) :
  n ≤ m →
  dargs_n !! "num" = Some (VInt n) →
  dargs_m !! "num" = Some (VInt m) →
  ∃ rn rm,
    V1.load w (V1.TestDataLoader_init (Some dargs_n)) = (Return rn, [])
    ∧ V1.load w (V1.TestDataLoader_init (Some dargs_m)) = (Return rm, [])
    ∧ rn `prefix_of` rm.
Proof.
  intros Hle Hn Hm.
  exists (test_record <$> seqZ 1 n), (test_record <$> seqZ 1 m).
  rewrite (synthetic_V1_records w n dargs_n Hn),
          (synthetic_V1_records w m dargs_m Hm).
  split_and!; [done..|]. by apply synthetic_prefix.
Qed.

Lemma synthetic_V1_records_prefix_witness :
  ∃ rn rm,
    V1.load Sample.world (V1.TestDataLoader_init (Some {[ "num" := VInt 0 ]}))
      = (Return rn, [])
    ∧ V1.load Sample.world (V1.TestDataLoader_init (Some {[ "num" := VInt 5 ]}))
      = (Return rm, [])
    ∧ rn `prefix_of` rm.
Proof.
  refine (synthetic_V1_records_prefix Sample.world 0 5
            {[ "num" := VInt 0 ]} {[ "num" := VInt 5 ]} _ _ _);
    [lia | reflexivity..].
Defined.

(** X12. In the second generation the same holds for caps other than 0:
    for [n <= m], both not 0, the records for [head = n] are the first
    records for [head = m]. *)
Theorem synthetic_V2_records_prefix (w : World) (n m : Z) (path : string)
    (args_n args_m : gmap string value) :
  n ≤ m → n ≠ 0 → m ≠ 0 →
  cfg_get args_n "dataset_head|head" = VInt n →
  cfg_get args_m "dataset_head|head" = VInt m →
  ∃ rn rm,
    V2.load w (V2.TestDataLoader (V2.DataLoader_init path args_n)) = (Return rn, [])
    ∧ V2.load w (V2.TestDataLoader (V2.DataLoader_init path args_m)) = (Return rm, [])
    ∧ rn `prefix_of` rm.
Proof.
  intros Hle Hn0 Hm0 Hn Hm.
  exists (test_record <$> seqZ 1 n), (test_record <$> seqZ 1 m).
  rewrite (synthetic_V2_records w n path args_n Hn0 Hn),
          (synthetic_V2_records w m path args_m Hm0 Hm).
  split_and!; [done..|]. by apply synthetic_prefix.
Qed.

Lemma synthetic_V2_records_prefix_witness :
  ∃ rn rm,
    V2.load Sample.world
      (V2.TestDataLoader (V2.DataLoader_init "dataset/dummy" {[ "head" := VInt 2 ]}))
      = (Return rn, [])
    ∧ V2.load Sample.world
        (V2.TestDataLoader (V2.DataLoader_init "dataset/dummy" {[ "head" := VInt 5 ]}))
      = (Return rm, [])
    ∧ rn `prefix_of` rm.
Proof.
  refine (synthetic_V2_records_prefix Sample.world 2 5 "dataset/dummy"
            {[ "head" := VInt 2 ]} {[ "head" := VInt 5 ]} _ _ _ _ _);
    [lia | lia | lia | reflexivity..].
Defined.

(** X13. Without a [num] the synthetic loader of the first generation
    returns exactly the two records [test_1] and [test_2], whether
    [dataset_args] is a mapping without that key or is not given at all. *)
Theorem synthetic_V1_default_two (w : World) (dargs : gmap string value) :
  dargs !! "num" = None →
  V1.load w (V1.TestDataLoader_init (Some dargs))
    = (Return [test_record 1; test_record 2], [])
  ∧ V1.load w (V1.TestDataLoader_init None)
    = (Return [test_record 1; test_record 2], []).
Proof. intros Hnum. split; [|done]. run_V1. by rewrite Hnum. Qed.

Lemma synthetic_V1_default_two_witness :
  V1.load Sample.world (V1.TestDataLoader_init (Some {[ "split" := VStr "dev" ]}))
    = (Return [test_record 1; test_record 2], [])
  ∧ V1.load Sample.world (V1.TestDataLoader_init None)
    = (Return [test_record 1; test_record 2], []).
Proof.
  apply (synthetic_V1_default_two Sample.world {[ "split" := VStr "dev" ]}).
  reflexivity.
Defined.

(** X18. A negative count is no error: the synthetic loaders return the
    empty sequence for it, [range(1, n + 1)] being empty.  Both
    generations. *)
Theorem synthetic_negative_count_empty (w : World) (n : Z) (path : string)
    (args dargs : gmap string value) :
  n < 0 →
  cfg_get args "dataset_head|head" = VInt n →
  dargs !! "num" = Some (VInt n) →
  V2.load w (V2.TestDataLoader (V2.DataLoader_init path args)) = (Return [], [])
  ∧ V1.load w (V1.TestDataLoader_init (Some dargs)) = (Return [], []).
Proof.
  intros Hn Hhead Hnum. split.
  - rewrite (synthetic_V2_records w n path args) by (done || lia).
    by rewrite seqZ_nil by lia.
  - rewrite (synthetic_V1_records w n dargs Hnum).
    by rewrite seqZ_nil by lia.
Qed.

Lemma synthetic_negative_count_empty_witness :
  V2.load Sample.world
    (V2.TestDataLoader (V2.DataLoader_init "dataset/dummy" {[ "head" := VInt (-4) ]}))
    = (Return [], [])
  ∧ V1.load Sample.world (V1.TestDataLoader_init (Some {[ "num" := VInt (-4) ]}))
    = (Return [], []).
Proof.
  refine (synthetic_negative_count_empty Sample.world (-4) "dataset/dummy"
            {[ "head" := VInt (-4) ]} {[ "num" := VInt (-4) ]} _ _ _);
    [lia | reflexivity..].
Defined.

(** ** The factory, the identifier and the lines of a file *)

(** X14. On a string the factory builds a loader only from a dict that
    holds the key [dataset_head|head] as it is written, and never for
    ["test"]: for ["test"] it raises [TypeError], the class it calls
    wanting two arguments; for another string it raises [TypeError] on
    [None] and [KeyError] on a dict without that key.  When it does build,
    the loader is the file loader exactly for a string that ends with
    [.jsonl], the registry loader otherwise, with that dict entry as its
    cap.  It calls nothing in any case. *)
Theorem factory_create_on_strings (s : string)
    (dataset_args : option (gmap string value)) :
  s ≠ "test" →
  V1.create (VStr "test") dataset_args = (Raise TypeError, [])
  ∧ V1.create (VStr s) None = (Raise TypeError, [])
  ∧ (∀ d, d !! "dataset_head|head" = None →
          V1.create (VStr s) (Some d)
          = (Raise (KeyError "dataset_head|head"), []))
  ∧ (∀ d v, d !! "dataset_head|head" = Some v →
            ∃ loader,
              V1.create (VStr s) (Some d) = (Return loader, [])
              ∧ V1.rebound_self loader
                = {| V2.dataset_path := s; V2.args := d; V2.head := v |}
              ∧ V1.rebound_class loader ≠ V1.name_TestDataLoader
              ∧ (V1.rebound_class loader = V1.name_JSONDataLoader
                 ↔ ∃ stem, s = stem +:+ ".jsonl")).
Proof.
  intros Hne. pose proof (endswith_spec s ".jsonl") as Hspec.
  unfold V1.create, V1.call_with_two, V1.dict_item.
  destruct (String.eqb_spec s "test") as [->|_]; [done|].
  split_and!.
  - reflexivity.
  - by destruct (endswith s ".jsonl").
  - intros d Hd. rewrite Hd. by destruct (endswith s ".jsonl").
  - intros d v Hd. rewrite Hd.
    destruct (endswith s ".jsonl"); eexists; (split; [reflexivity|]); cbn;
      split_and!; try done.
    + split; [intros _; by apply Hspec | done].
    + split; [discriminate | intros H; by apply Hspec in H].
Qed.

Lemma factory_create_on_strings_witness :
  V1.create (VStr "test") (Some {[ "dataset_head|head" := VInt 2 ]})
    = (Raise TypeError, [])
  ∧ V1.create (VStr "data/sample.jsonl") None = (Raise TypeError, [])
  ∧ (∀ d, d !! "dataset_head|head" = None →
          V1.create (VStr "data/sample.jsonl") (Some d)
          = (Raise (KeyError "dataset_head|head"), []))
  ∧ (∀ d v, d !! "dataset_head|head" = Some v →
            ∃ loader,
              V1.create (VStr "data/sample.jsonl") (Some d) = (Return loader, [])
              ∧ V1.rebound_self loader
                = {| V2.dataset_path := "data/sample.jsonl"; V2.args := d;
                     V2.head := v |}
              ∧ V1.rebound_class loader ≠ V1.name_TestDataLoader
              ∧ (V1.rebound_class loader = V1.name_JSONDataLoader
                 ↔ ∃ stem, "data/sample.jsonl" = stem +:+ ".jsonl")).
Proof.
  apply (factory_create_on_strings "data/sample.jsonl"
           (Some {[ "dataset_head|head" := VInt 2 ]})).
  discriminate.
Defined.

(** X15. An identifier that is neither [None] nor a string (a number, a
    list) makes both entry points raise [AttributeError] before any loader
    is built: nothing is opened and the hub is not called. *)
Theorem identifier_not_a_string_raises (w : World) (v : value)
    (args : gmap string value) (dataset_args : option (gmap string value)) :
  identifier_of v = None →
  cfg_get args "dataset_path|dataset" = v →
  V2.load_testdata w args = (Raise AttributeError, [])
  ∧ V1.load_testdata w v dataset_args = (Raise AttributeError, []).
Proof.
  intros Hv Hcfg. unfold V2.load_testdata. rewrite Hcfg.
  by destruct v.
Qed.

Lemma identifier_not_a_string_raises_witness :
  V2.load_testdata Sample.world {[ "dataset" := VInt 7 ]} = (Raise AttributeError, [])
  ∧ V1.load_testdata Sample.world (VInt 7) None = (Raise AttributeError, []).
Proof.
  apply (identifier_not_a_string_raises Sample.world (VInt 7)
           {[ "dataset" := VInt 7 ]} None); reflexivity.
Defined.

Section Lines.

Context (w : World).

Lemma list_comp_strip (lines : list string) :
  list_comp (λ line, loads w (strip line)) lines
  = list_comp (loads w) (strip <$> lines).
Proof.
  induction lines as [|line lines IH]; [done|].
  rewrite fmap_cons, !list_comp_cons. by rewrite IH.
Qed.

(** The outcome of a sequence does not depend on the calls made before. *)
Lemma bind_outcome {A B} (r : outcome A) (t1 t2 : list event) (f : A → io B) :
  ((r, t1) ≫= f).1 = ((r, t2) ≫= f).1.
Proof. destruct r as [a|e]; [|done]. rewrite !bind_return. by destruct (f a). Qed.

Lemma decode_lines_first_rejected (good rest : list string) (bad : string)
    (records : list value) :
  Forall2 (λ line r, json_loads w (strip line) = Some r) good records →
  json_loads w (strip bad) = None →
  list_comp (λ line, loads w (strip line)) (good ++ bad :: rest)
  = (Raise (JSONDecodeError (strip bad)), []).
Proof.
  intros Hgood Hbad. induction Hgood as [|line r good records Hr _ IH]; cbn [app].
  - by rewrite list_comp_cons, (loads_fail w _ Hbad).
  - by rewrite list_comp_cons, (loads_ok w _ _ Hr), IH.
Qed.

End Lines.

(** X16. The file loader sees a line only through its stripped text: two
    existing files whose lines are equal after stripping give the same
    outcome (the same records, or the same error), whatever the cap.  Both
    generations. *)
Theorem file_loader_ignores_padding (w : World) (path1 path2 : string)
    (lines1 lines2 : list string) (args : gmap string value)
    (dargs : option (gmap string value)) :
  fs w path1 = Some lines1 →
  fs w path2 = Some lines2 →
  strip <$> lines1 = strip <$> lines2 →
  (V2.load w (V2.JSONDataLoader (V2.DataLoader_init path1 args))).1
    = (V2.load w (V2.JSONDataLoader (V2.DataLoader_init path2 args))).1
  ∧ (V1.load w (V1.JSONDataLoader_init path1 dargs)).1
    = (V1.load w (V1.JSONDataLoader_init path2 dargs)).1.
Proof.
  intros H1 H2 Hs. split.
  - run_V2. rewrite (read_existing w _ _ _ H1), (read_existing w _ _ _ H2).
    rewrite !list_comp_strip, Hs. apply bind_outcome.
  - run_V1. rewrite (read_existing w _ _ _ H1), (read_existing w _ _ _ H2).
    rewrite !list_comp_strip, Hs. apply bind_outcome.
Qed.

Lemma file_loader_ignores_padding_witness :
  (V2.load SampleMore.world
     (V2.JSONDataLoader
        (V2.DataLoader_init "data/sample.jsonl" {[ "head" := VInt 4 ]}))).1
    = (V2.load SampleMore.world
         (V2.JSONDataLoader
            (V2.DataLoader_init "data/plain.jsonl" {[ "head" := VInt 4 ]}))).1
  ∧ (V1.load SampleMore.world (V1.JSONDataLoader_init "data/sample.jsonl" None)).1
    = (V1.load SampleMore.world (V1.JSONDataLoader_init "data/plain.jsonl" None)).1.
Proof.
  apply (file_loader_ignores_padding SampleMore.world "data/sample.jsonl"
           "data/plain.jsonl" Sample.sample_lines SampleMore.plain_lines);
    reflexivity.
Defined.

(** X17. The error of a load names the first line the decoder rejects: when
    the lines before it decode, the load raises the decoder's error for the
    stripped text of that line, whatever follows it and whatever the cap,
    even a cap that would have cut the list before that line.  Both
    generations. *)
Theorem first_rejected_line_is_reported (w : World) (path : string)
    (good rest : list string) (bad : string) (records : list value)
    (args : gmap string value) (dargs : option (gmap string value)) :
  fs w path = Some (good ++ bad :: rest) →
  Forall2 (λ line r, json_loads w (strip line) = Some r) good records →
  json_loads w (strip bad) = None →
  V2.load w (V2.JSONDataLoader (V2.DataLoader_init path args))
    = (Raise (JSONDecodeError (strip bad)), [EvOpen path])
  ∧ V1.load w (V1.JSONDataLoader_init path dargs)
    = (Raise (JSONDecodeError (strip bad)), [EvOpen path]).
Proof.
  intros Hfs Hgood Hbad. split.
  - run_V2. rewrite (read_existing w _ _ _ Hfs).
    by rewrite (decode_lines_first_rejected w _ _ _ _ Hgood Hbad).
  - run_V1. rewrite (read_existing w _ _ _ Hfs).
    by rewrite (decode_lines_first_rejected w _ _ _ _ Hgood Hbad).
Qed.

Lemma first_rejected_line_is_reported_witness :
  V2.load Sample.world
    (V2.JSONDataLoader (V2.DataLoader_init "data/broken.jsonl" {[ "head" := VInt 1 ]}))
    = (Raise (JSONDecodeError "{oops"), [EvOpen "data/broken.jsonl"])
  ∧ V1.load Sample.world
      (V1.JSONDataLoader_init "data/broken.jsonl" (Some {[ "num" := VInt 1 ]}))
    = (Raise (JSONDecodeError "{oops"), [EvOpen "data/broken.jsonl"]).
Proof.
  refine (first_rejected_line_is_reported Sample.world "data/broken.jsonl"
            [Sample.obj_text 1 +:+ Sample.nl] [Sample.obj_text 3 +:+ Sample.nl]
            ("{oops" +:+ Sample.nl) [Sample.obj 1]
            {[ "head" := VInt 1 ]} (Some {[ "num" := VInt 1 ]}) _ _ _).
  - reflexivity.
  - repeat constructor.
  - reflexivity.
Defined.
